(** * The Knative serving client facade (pkg/serving/v1alpha1/client.go)

    A shallow embedding of the client facade and of the properties its
    specification states about it.

    - Go structs are records, [error] values an inductive type, and a Go
      result pair [(x, err)] the type [result].
    - [labels.Set] and [fields.Set] (both [map[string]string]) are
      [gmap string string].
    - [getBaseRevision] is written against the [KnServingClient] interface and
      the helpers of package [serving]; it is embedded as a program over those
      calls, so that which calls a path performs can be stated.
    - The list functions work on pointers; they are embedded over an explicit
      heap with allocation and in-place update. *)

From stdpp Require Import gmap strings list fin_maps sorting.


(** ** Strings *)

(** Go's [a != b] on strings. *)
Definition strne (a b : string) : bool := negb (String.eqb a b).
Infix "!=?" := strne (at level 70, no associativity).

(** ** Errors *)

(** [metav1.StatusReason], as far as the client needs it. *)
Inductive StatusReason :=
| StatusReasonUnknown
| StatusReasonNotFound
| StatusReasonAlreadyExists
| StatusReasonInvalid.

(** [type NoBaseRevisionError struct { msg string }] *)
Record NoBaseRevisionError := { msg : string }.

(** The dynamic types an [error] value of this package can have: the API
    machinery's [*StatusError], the package's own [*NoBaseRevisionError], and
    the plain error [fmt.Errorf] builds. *)
Inductive error :=
| StatusError (reason : StatusReason) (resource name : string)
| NoBaseRevision (e : NoBaseRevisionError)
| errorString (s : string).

(** [func (e NoBaseRevisionError) Error() string] *)
Definition NoBaseRevisionError_Error (e : NoBaseRevisionError) : string := msg e.

(** [var noBaseRevisionError = &NoBaseRevisionError{"base revision not found"}] *)
Definition noBaseRevisionError : error :=
  NoBaseRevision {| msg := "base revision not found" |}.

(** [apierrors.NewNotFound(resource, name)] *)
Definition NewNotFound (resource name : string) : error :=
  StatusError StatusReasonNotFound resource name.

(** [apierrors.IsNotFound(err)] *)
Definition IsNotFound (err : error) : bool :=
  match err with
  | StatusError StatusReasonNotFound _ _ => true
  | _ => false
  end.

(** The dynamic type of the error is [*NoBaseRevisionError]. *)
Definition IsNoBaseRevisionError (err : error) : bool :=
  match err with
  | NoBaseRevision _ => true
  | _ => false
  end.

(** A Go result pair [(x, err)]: [Err err] stands for [(nil, err)] and
    [Ok x] for [(x, nil)]. *)
Inductive result (A : Type) : Type :=
| Ok (a : A)
| Err (err : error).
Arguments Ok {A} a.
Arguments Err {A} err.

Definition isErr {A} (r : result A) : bool :=
  match r with Err _ => true | Ok _ => false end.

(** ** The resources *)

Record TypeMeta := { Kind : string; APIVersion : string }.

Inductive ConditionStatus := ConditionTrue | ConditionFalse | ConditionUnknown.

Record Condition := {
  cond_Type : string;
  cond_Status : ConditionStatus;
  cond_Reason : string;
  cond_Message : string
}.

(** [apis.Conditions] *)
Definition Conditions := list Condition.

Record Container := { ctr_Name : string; Image : string }.

Record RevisionSpec := {
  DeprecatedContainer : option Container;
  Containers : list Container
}.

Record RevisionTemplateSpec := {
  tmpl_Name : string;
  tmpl_Spec : RevisionSpec
}.

Record ServiceSpec := { Template : option RevisionTemplateSpec }.

Record ServiceStatus := {
  status_Conditions : Conditions;
  LatestReadyRevisionName : string;
  LatestCreatedRevisionName : string
}.

Record Service := {
  svc_TypeMeta : TypeMeta;
  svc_Name : string;
  svc_Spec : ServiceSpec;
  svc_Status : ServiceStatus
}.

Record Revision := {
  rev_TypeMeta : TypeMeta;
  rev_Name : string;
  rev_Spec : RevisionSpec
}.

Record Route := {
  route_TypeMeta : TypeMeta;
  route_Name : string;
  route_URL : string
}.

Record Configuration := {
  cfg_TypeMeta : TypeMeta;
  cfg_Name : string;
  cfg_Template : option RevisionTemplateSpec
}.

(** ** Programs over the collaborators of [getBaseRevision]

    [getBaseRevision] calls one method of the [KnServingClient] interface it
    is handed and three helpers of package [serving].  A call is an [Op]
    indexed by the type of what it returns; a program either returns or
    performs a call and continues with its answer. *)

Inductive Op : Type -> Type :=
| OpRevisionTemplateOfService (service : Service) : Op (result RevisionTemplateSpec)
| OpGetRevision (name : string) : Op (result Revision)
| OpContainerOfRevisionSpec (revisionSpec : RevisionSpec) : Op (result Container)
| OpContainerOfRevisionTemplate (template : RevisionTemplateSpec) : Op (result Container).

Inductive Prog (A : Type) : Type :=
| Ret (a : A)
| Vis {X : Type} (op : Op X) (k : X -> Prog A).
Arguments Ret {A} a.
Arguments Vis {A X} op k.

(** [x, err := call; if err != nil { return nil, err }; rest] *)
Notation "'try!' x ':=' c 'in' k" :=
  (Vis c (fun r => match r with
                   | Err err => Ret (Err err)
                   | Ok x => k
                   end))
  (at level 10, x name, c at level 100, k at level 200).

(** [func getBaseRevision(cl KnServingClient, service *v1alpha1.Service)]:
    the client [cl] and package [serving] are what interprets the calls. *)
Definition getBaseRevision (service : Service) : Prog (result Revision) :=
  try! template := OpRevisionTemplateOfService service in
  if tmpl_Name template !=? EmptyString then
    Vis (OpGetRevision (tmpl_Name template)) Ret
  else if LatestCreatedRevisionName (svc_Status service) !=? EmptyString then
    try! latestCreated := OpGetRevision (LatestCreatedRevisionName (svc_Status service)) in
    try! latestContainer := OpContainerOfRevisionSpec (rev_Spec latestCreated) in
    try! container := OpContainerOfRevisionTemplate template in
    if Image latestContainer !=? Image container then
      Ret (Err noBaseRevisionError)
    else
      Ret (Ok latestCreated)
  else
    Ret (Err noBaseRevisionError).

(** What a run has called, in order. *)
Inductive Call :=
| CallRevisionTemplateOfService (service : Service)
| CallGetRevision (name : string)
| CallContainerOfRevisionSpec (revisionSpec : RevisionSpec)
| CallContainerOfRevisionTemplate (template : RevisionTemplateSpec).

Definition callOf {X} (op : Op X) : Call :=
  match op with
  | OpRevisionTemplateOfService service => CallRevisionTemplateOfService service
  | OpGetRevision name => CallGetRevision name
  | OpContainerOfRevisionSpec revisionSpec => CallContainerOfRevisionSpec revisionSpec
  | OpContainerOfRevisionTemplate template => CallContainerOfRevisionTemplate template
  end.

(** The two container extractions that feed the image comparison. *)
Definition isImageComparison (c : Call) : bool :=
  match c with
  | CallContainerOfRevisionSpec _ | CallContainerOfRevisionTemplate _ => true
  | _ => false
  end.

(** The collaborators: the part of the [KnServingClient] interface that
    [getBaseRevision] uses, over the state [W] of whatever implements it, and
    package [serving], whose functions are pure. *)
Record Collaborators (W : Type) := {
  RevisionTemplateOfService : Service -> result RevisionTemplateSpec;
  ContainerOfRevisionSpec : RevisionSpec -> result Container;
  ContainerOfRevisionTemplate : RevisionTemplateSpec -> result Container;
  GetRevision : string -> W -> result Revision * W
}.
Arguments RevisionTemplateOfService {W} _ _.
Arguments ContainerOfRevisionSpec {W} _ _.
Arguments ContainerOfRevisionTemplate {W} _ _.
Arguments GetRevision {W} _ _ _.

Definition perform {W X} (cl : Collaborators W) (op : Op X) (w : W) : X * W :=
  match op in Op T return T * W with
  | OpRevisionTemplateOfService service => (RevisionTemplateOfService cl service, w)
  | OpGetRevision name => GetRevision cl name w
  | OpContainerOfRevisionSpec revisionSpec => (ContainerOfRevisionSpec cl revisionSpec, w)
  | OpContainerOfRevisionTemplate template => (ContainerOfRevisionTemplate cl template, w)
  end.

(** The outcome of a run: what was returned, the state the collaborators are
    left in, and the calls made. *)
Record Outcome (A W : Type) := {
  returned : A;
  world : W;
  calls : list Call
}.
Arguments returned {A W} _.
Arguments world {A W} _.
Arguments calls {A W} _.

Fixpoint runFrom {A W} (cl : Collaborators W) (p : Prog A) (w : W) (log : list Call)
  : Outcome A W :=
  match p with
  | Ret a => {| returned := a; world := w; calls := log |}
  | Vis op k =>
      let '(x, w') := perform cl op w in
      runFrom cl (k x) w' (log ++ [callOf op])
  end.

Definition run {A W} (cl : Collaborators W) (p : Prog A) (w : W) : Outcome A W :=
  runFrom cl p w [].

(** [func (cl *knServingClient) GetBaseRevision(service)] *)
Definition GetBaseRevision {W} (cl : Collaborators W) (service : Service) (w : W)
  : Outcome (result Revision) W :=
  run cl (getBaseRevision service) w.

(** ** [runtime.Object] and the group-version-kind update *)

(** The Go types the scheme is asked about. *)
Inductive GoType :=
| ServiceT | ServiceListT
| RevisionT | RevisionListT
| RouteT | RouteListT
| ConfigurationT.

Record ServiceList := { sl_TypeMeta : TypeMeta; sl_Items : list Service }.
Record RevisionList := { rl_TypeMeta : TypeMeta; rl_Items : list Revision }.
Record RouteList := { rtl_TypeMeta : TypeMeta; rtl_Items : list Route }.

(** What [updateServingGvk] needs of a [runtime.Object]: its Go type, and
    [GetObjectKind().SetGroupVersionKind], which overwrites its [TypeMeta]. *)
Class RuntimeObject (A : Type) := {
  goType : GoType;
  GetTypeMeta : A -> TypeMeta;
  SetGroupVersionKind : TypeMeta -> A -> A;
  GetTypeMeta_Set : forall gvk obj, GetTypeMeta (SetGroupVersionKind gvk obj) = gvk
}.
Arguments goType A {_}.

#[export] Instance Service_RuntimeObject : RuntimeObject Service := {|
  goType := ServiceT;
  GetTypeMeta := svc_TypeMeta;
  SetGroupVersionKind tm s :=
    {| svc_TypeMeta := tm; svc_Name := svc_Name s;
       svc_Spec := svc_Spec s; svc_Status := svc_Status s |};
  GetTypeMeta_Set := fun _ _ => eq_refl
|}.

#[export] Instance Revision_RuntimeObject : RuntimeObject Revision := {|
  goType := RevisionT;
  GetTypeMeta := rev_TypeMeta;
  SetGroupVersionKind tm r :=
    {| rev_TypeMeta := tm; rev_Name := rev_Name r; rev_Spec := rev_Spec r |};
  GetTypeMeta_Set := fun _ _ => eq_refl
|}.

#[export] Instance Route_RuntimeObject : RuntimeObject Route := {|
  goType := RouteT;
  GetTypeMeta := route_TypeMeta;
  SetGroupVersionKind tm r :=
    {| route_TypeMeta := tm; route_Name := route_Name r; route_URL := route_URL r |};
  GetTypeMeta_Set := fun _ _ => eq_refl
|}.

#[export] Instance Configuration_RuntimeObject : RuntimeObject Configuration := {|
  goType := ConfigurationT;
  GetTypeMeta := cfg_TypeMeta;
  SetGroupVersionKind tm c :=
    {| cfg_TypeMeta := tm; cfg_Name := cfg_Name c; cfg_Template := cfg_Template c |};
  GetTypeMeta_Set := fun _ _ => eq_refl
|}.

#[export] Instance ServiceList_RuntimeObject : RuntimeObject ServiceList := {|
  goType := ServiceListT;
  GetTypeMeta := sl_TypeMeta;
  SetGroupVersionKind tm l := {| sl_TypeMeta := tm; sl_Items := sl_Items l |};
  GetTypeMeta_Set := fun _ _ => eq_refl
|}.

#[export] Instance RevisionList_RuntimeObject : RuntimeObject RevisionList := {|
  goType := RevisionListT;
  GetTypeMeta := rl_TypeMeta;
  SetGroupVersionKind tm l := {| rl_TypeMeta := tm; rl_Items := rl_Items l |};
  GetTypeMeta_Set := fun _ _ => eq_refl
|}.

#[export] Instance RouteList_RuntimeObject : RuntimeObject RouteList := {|
  goType := RouteListT;
  GetTypeMeta := rtl_TypeMeta;
  SetGroupVersionKind tm l := {| rtl_TypeMeta := tm; rtl_Items := rtl_Items l |};
  GetTypeMeta_Set := fun _ _ => eq_refl
|}.

(** Package [util] is outside the verified sources.  Its
    [UpdateGroupVersionKindWithScheme(obj, gv, scheme)] is taken as a
    parameter [schemeGVK]: for the Go type of [obj], with
    [v1alpha1.SchemeGroupVersion] and [scheme.Scheme] fixed, either an error
    or the group-version-kind that is then set on [obj]. *)
Definition Scheme := GoType -> result TypeMeta.

(** [func updateServingGvk(obj runtime.Object) error], on the value [obj]
    points to: the updated value, or the error with [obj] as it was. *)
Definition updateServingGvk `{RuntimeObject A} (schemeGVK : Scheme) (obj : A) : result A :=
  match schemeGVK (goType A) with
  | Err err => Err err
  | Ok gvk => Ok (SetGroupVersionKind gvk obj)
  end.

(** ** The client facade over the typed client *)

(** [client_v1alpha1.ServingV1alpha1Interface], the generated typed client:
    [Revisions(namespace).Get(name, v1.GetOptions{})] over the state [W] of
    the cluster it talks to. *)
Record ServingV1alpha1Interface (W : Type) := {
  Revisions_Get : string -> string -> W -> result Revision * W
}.
Arguments Revisions_Get {W} _ _ _ _.

Record knServingClient (W : Type) := {
  client : ServingV1alpha1Interface W;
  namespace : string
}.
Arguments client {W} _.
Arguments namespace {W} _.

(** [func NewKnServingClient(client, namespace) KnServingClient] *)
Definition NewKnServingClient {W} (client : ServingV1alpha1Interface W)
    (namespace : string) : knServingClient W :=
  {| client := client; namespace := namespace |}.

(** [func (cl *knServingClient) GetRevision(name)].  [GetError] is
    [kn_errors.GetError], of a package outside the verified sources, hence a
    parameter. *)
Definition knServingClient_GetRevision {W} (GetError : error -> error)
    (schemeGVK : Scheme) (cl : knServingClient W) (name : string) (w : W)
  : result Revision * W :=
  match Revisions_Get (client cl) (namespace cl) name w with
  | (Err err, w') => (Err (GetError err), w')
  | (Ok revision, w') =>
      match updateServingGvk schemeGVK revision with
      | Err err => (Err err, w')
      | Ok revision => (Ok revision, w')
      end
  end.

(** The facade as the collaborator [getBaseRevision] is handed, together
    with the three helpers of package [serving] (outside the verified
    sources, hence parameters). *)
Definition knServingCollaborators {W} (GetError : error -> error) (schemeGVK : Scheme)
    (templateOf : Service -> result RevisionTemplateSpec)
    (containerOfSpec : RevisionSpec -> result Container)
    (containerOfTemplate : RevisionTemplateSpec -> result Container)
    (cl : knServingClient W) : Collaborators W :=
  {| RevisionTemplateOfService := templateOf;
     ContainerOfRevisionSpec := containerOfSpec;
     ContainerOfRevisionTemplate := containerOfTemplate;
     GetRevision := knServingClient_GetRevision GetError schemeGVK cl |}.

(** ** List options *)

(** [type listConfigCollector struct { Labels labels.Set; Fields fields.Set }],
    both sets being a [map[string]string]. *)
Record listConfigCollector := {
  Labels : gmap string string;
  Fields : gmap string string
}.

(** [type ListConfig func(config *listConfigCollector)]: what the function
    does to the collector it is handed a pointer to.  (The nil function,
    whose call panics, is not among the values of this type.) *)
Definition ListConfig := listConfigCollector -> listConfigCollector.

(** [type ListConfigs []ListConfig] *)
Definition ListConfigs := list ListConfig.

(** [v1.ListOptions], of which only the two selectors are ever set here. *)
Record ListOptions := {
  LabelSelector : string;
  FieldSelector : string
}.

(** [strings.Join(elems, sep)] *)
Fixpoint Join (elems : list string) (sep : string) : string :=
  match elems with
  | [] => EmptyString
  | [s] => s
  | s :: rest => s +:+ sep +:+ Join rest sep
  end.

(** [func (ls Set) String() string] of the API machinery, the same for labels
    and fields: the entries as [key=value], sorted, joined by commas. *)
Definition Set_String (ls : gmap string string) : string :=
  Join (merge_sort String.le ((fun kv => kv.1 +:+ "=" +:+ kv.2) <$> map_to_list ls)) ",".

(** [api_serving.ServiceLabelKey] of knative.dev/serving. *)
Definition ServiceLabelKey : string := "serving.knative.dev/service".

(** The collector after every function of [opts] has run on it, in order:
    the loop of [toListOptions]. *)
Definition collect (opts : ListConfigs) : listConfigCollector :=
  fold_left (fun listConfig f => f listConfig) opts {| Labels := ∅; Fields := ∅ |}.

(** [func (opts ListConfigs) toListOptions() v1.ListOptions] *)
Definition toListOptions (opts : ListConfigs) : ListOptions :=
  let listConfig := collect opts in
  let options := {| LabelSelector := EmptyString; FieldSelector := EmptyString |} in
  let options :=
    if 0 <? size (Fields listConfig) then
      {| LabelSelector := LabelSelector options;
         FieldSelector := Set_String (Fields listConfig) |}
    else options in
  let options :=
    if 0 <? size (Labels listConfig) then
      {| LabelSelector := Set_String (Labels listConfig);
         FieldSelector := FieldSelector options |}
    else options in
  options.

(** [func WithName(name string) ListConfig] *)
Definition WithName (name : string) : ListConfig :=
  fun lo => {| Labels := Labels lo; Fields := <["metadata.name" := name]> (Fields lo) |}.

(** [func WithService(service string) ListConfig] *)
Definition WithService (service : string) : ListConfig :=
  fun lo => {| Labels := <[ServiceLabelKey := service]> (Labels lo); Fields := Fields lo |}.

(** The config adds a field entry: it is some [WithName name]. *)
Definition addsField (f : ListConfig) : Prop := exists name, f = WithName name.

(** The config adds a label entry: it is some [WithService service]. *)
Definition addsLabel (f : ListConfig) : Prop := exists service, f = WithService service.

(** The configs the package builds. *)
Definition isListConfig (f : ListConfig) : Prop := addsField f \/ addsLabel f.

(** ** Condition extraction *)

(** A [runtime.Object]: the nil interface, a pointer to one of the resources
    of the serving API (modelled by what it points to), or any other type,
    given by its name. *)
Inductive Object :=
| ObjNil
| ObjService (service : Service)
| ObjRevision (revision : Revision)
| ObjRoute (route : Route)
| ObjConfiguration (configuration : Configuration)
| ObjServiceList (serviceList : ServiceList)
| ObjRevisionList (revisionList : RevisionList)
| ObjRouteList (routeList : RouteList)
| ObjOther (typeName : string).

(** The type assertion of [obj] to a pointer to [v1alpha1.Service]. *)
Definition asService (obj : Object) : option Service :=
  match obj with
  | ObjService service => Some service
  | _ => None
  end.

(** [func serviceConditionExtractor(obj runtime.Object) (apis.Conditions, error)].
    [fmtV] is how package [fmt] prints an object under the verb [%v]. *)
Definition serviceConditionExtractor (fmtV : Object -> string) (obj : Object)
  : result Conditions :=
  match asService obj with
  | None => Err (errorString (fmtV obj +:+ " is not a service"))
  | Some service => Ok (status_Conditions (svc_Status service))
  end.

(** What the interface [runtime.Object] holds when the extractor is called:
    one of the objects above, or the nil pointer of type [*v1alpha1.Service].
    The nil pointer has the dynamic type the type assertion asks for although
    it points to no service.  (A nil pointer of any other type is a value of
    another type, as [ObjOther] has it.) *)
Inductive InterfaceValue :=
| NilService
| Holds (obj : Object).

(** The type assertion [service, ok := obj.( *v1alpha1.Service)]: [None] when
    [ok] is false, and otherwise the pointer [service], which is [None] when
    it is nil. *)
Definition assertService (obj : InterfaceValue) : option (option Service) :=
  match obj with
  | NilService => Some None
  | Holds (ObjService service) => Some (Some service)
  | Holds _ => None
  end.

(** How a call ends: it returns, or it panics. *)
Inductive Completion (A : Type) : Type :=
| Returns (a : A)
| Panics.
Arguments Returns {A} a.
Arguments Panics {A}.

(** The call has returned an error. *)
Definition returnsError {A} (c : Completion (result A)) : bool :=
  match c with
  | Returns (Err _) => true
  | _ => false
  end.

(** [func serviceConditionExtractor(obj runtime.Object) (apis.Conditions, error)]
    on every value the interface can hold: when the assertion fails, the
    error; otherwise [service.Status.Conditions], whose evaluation
    dereferences [service] and panics when it is nil.  [fmtV] is how package
    [fmt] prints the value under the verb [%v]. *)
Definition serviceConditionExtractorOn (fmtV : InterfaceValue -> string)
    (obj : InterfaceValue) : Completion (result Conditions) :=
  match assertService obj with
  | None => Returns (Err (errorString (fmtV obj +:+ " is not a service")))
  | Some None => Panics
  | Some (Some service) => Returns (Ok (status_Conditions (svc_Status service)))
  end.

(** ** Waiting for a service

    Package [wait] is outside the verified sources; what [client.go] uses
    of it is gathered in a record: the type behind the [WaitForReady]
    interface, its constructor and its method [Wait]. *)

(** [time.Duration], a signed count of nanoseconds. *)
Definition Duration := Z.

(** [type WatchFunc func(opts v1.ListOptions) (watch.Interface, error)] over
    the state [W] of the cluster, [I] being [watch.Interface]. *)
Definition WatchFunc (W I : Type) := ListOptions -> W -> result I * W.

(** [type ConditionsExtractor func(obj runtime.Object) (apis.Conditions, error)] *)
Definition ConditionsExtractor := Object -> result Conditions.

Record WaitPackage (W I : Type) := {
  WaitForReady : Type;
  NewWaitForReady : string -> WatchFunc W I -> ConditionsExtractor -> WaitForReady;
  Wait : WaitForReady -> string -> Duration -> W -> option error * W
}.
Arguments WaitForReady {W I} _.
Arguments NewWaitForReady {W I} _ _ _ _.
Arguments Wait {W I} _ _ _ _ _.

(** [cl.client.Services(cl.namespace).Watch] for a client [cl]: the typed
    client's watch over services, by namespace. *)
Definition ServicesWatch (W I : Type) := string -> WatchFunc W I.

(** [func newServiceWaitForReady(watch wait.WatchFunc) wait.WaitForReady] *)
Definition newServiceWaitForReady {W I} (pkg : WaitPackage W I) (fmtV : Object -> string)
    (watch : WatchFunc W I) : WaitForReady pkg :=
  NewWaitForReady pkg "service" watch (serviceConditionExtractor fmtV).

(** [func (cl *knServingClient) WaitForService(name, timeout) error], for the
    client with typed client watch [servicesWatch] and namespace [namespace]. *)
Definition WaitForService {W I} (pkg : WaitPackage W I) (fmtV : Object -> string)
    (servicesWatch : ServicesWatch W I) (namespace : string)
    (name : string) (timeout : Duration) (w : W) : option error * W :=
  let waitForReady := newServiceWaitForReady pkg fmtV (servicesWatch namespace) in
  Wait pkg waitForReady name timeout w.

(** What the specification says [WaitForService] is: [Wait] on a readiness
    waiter of kind [service], fed by the service watch of the namespace, with
    the service condition extractor. *)
Definition WaitForService_spec {W I} (pkg : WaitPackage W I) (fmtV : Object -> string)
    (servicesWatch : ServicesWatch W I) (namespace : string)
    (name : string) (timeout : Duration) (w : W) : option error * W :=
  Wait pkg
    (NewWaitForReady pkg "service" (servicesWatch namespace) (serviceConditionExtractor fmtV))
    name timeout w.

(** ** The heap of the list functions

    The list functions receive a pointer from the typed client, copy what it
    points to and update the copies in place.  Pointers are locations of a
    heap whose cells hold the lists and their items; a computation threads
    the heap and is [None] when it dereferences a location that holds no
    value of the expected type, which a Go pointer never does. *)

Definition loc := positive.

Inductive cell :=
| CService (service : Service)
| CRevision (revision : Revision)
| CRoute (route : Route)
| CServiceList (serviceList : ServiceList)
| CRevisionList (revisionList : RevisionList)
| CRouteList (routeList : RouteList).

(** The types a cell can hold. *)
Class Stored (A : Type) := {
  toCell : A -> cell;
  ofCell : cell -> option A;
  ofCell_toCell : forall a, ofCell (toCell a) = Some a;
  ofCell_Some : forall c a, ofCell c = Some a -> c = toCell a
}.

#[export] Instance Service_Stored : Stored Service := {|
  toCell := CService;
  ofCell c := match c with CService v => Some v | _ => None end;
  ofCell_toCell := fun _ => eq_refl;
  ofCell_Some := ltac:(intros [] a; simpl; congruence)
|}.

#[export] Instance Revision_Stored : Stored Revision := {|
  toCell := CRevision;
  ofCell c := match c with CRevision v => Some v | _ => None end;
  ofCell_toCell := fun _ => eq_refl;
  ofCell_Some := ltac:(intros [] a; simpl; congruence)
|}.

#[export] Instance Route_Stored : Stored Route := {|
  toCell := CRoute;
  ofCell c := match c with CRoute v => Some v | _ => None end;
  ofCell_toCell := fun _ => eq_refl;
  ofCell_Some := ltac:(intros [] a; simpl; congruence)
|}.

#[export] Instance ServiceList_Stored : Stored ServiceList := {|
  toCell := CServiceList;
  ofCell c := match c with CServiceList v => Some v | _ => None end;
  ofCell_toCell := fun _ => eq_refl;
  ofCell_Some := ltac:(intros [] a; simpl; congruence)
|}.

#[export] Instance RevisionList_Stored : Stored RevisionList := {|
  toCell := CRevisionList;
  ofCell c := match c with CRevisionList v => Some v | _ => None end;
  ofCell_toCell := fun _ => eq_refl;
  ofCell_Some := ltac:(intros [] a; simpl; congruence)
|}.

#[export] Instance RouteList_Stored : Stored RouteList := {|
  toCell := CRouteList;
  ofCell c := match c with CRouteList v => Some v | _ => None end;
  ofCell_toCell := fun _ => eq_refl;
  ofCell_Some := ltac:(intros [] a; simpl; congruence)
|}.

(** The zero values [make] fills a fresh slice with. *)
Definition zeroTypeMeta : TypeMeta := {| Kind := EmptyString; APIVersion := EmptyString |}.
Definition zeroRevisionSpec : RevisionSpec :=
  {| DeprecatedContainer := None; Containers := [] |}.
Definition zeroService : Service :=
  {| svc_TypeMeta := zeroTypeMeta; svc_Name := EmptyString;
     svc_Spec := {| Template := None |};
     svc_Status := {| status_Conditions := []; LatestReadyRevisionName := EmptyString;
                      LatestCreatedRevisionName := EmptyString |} |}.
Definition zeroRevision : Revision :=
  {| rev_TypeMeta := zeroTypeMeta; rev_Name := EmptyString; rev_Spec := zeroRevisionSpec |}.
Definition zeroRoute : Route :=
  {| route_TypeMeta := zeroTypeMeta; route_Name := EmptyString; route_URL := EmptyString |}.

(** A list type [L] with its field [Items] of element type [A]. *)
Class ItemList (L A : Type) `{RuntimeObject L} := {
  Items : L -> list A;
  withItems : list A -> L -> L;
  zeroItem : A;
  Items_withItems : forall items l, Items (withItems items l) = items;
  GetTypeMeta_withItems : forall items l, GetTypeMeta (withItems items l) = GetTypeMeta l;
  Items_Set : forall gvk l, Items (SetGroupVersionKind gvk l) = Items l
}.

#[export] Instance ServiceList_ItemList : ItemList ServiceList Service := {|
  Items := sl_Items;
  withItems items l := {| sl_TypeMeta := sl_TypeMeta l; sl_Items := items |};
  zeroItem := zeroService;
  Items_withItems := fun _ _ => eq_refl;
  GetTypeMeta_withItems := fun _ _ => eq_refl;
  Items_Set := fun _ _ => eq_refl
|}.

#[export] Instance RevisionList_ItemList : ItemList RevisionList Revision := {|
  Items := rl_Items;
  withItems items l := {| rl_TypeMeta := rl_TypeMeta l; rl_Items := items |};
  zeroItem := zeroRevision;
  Items_withItems := fun _ _ => eq_refl;
  GetTypeMeta_withItems := fun _ _ => eq_refl;
  Items_Set := fun _ _ => eq_refl
|}.

#[export] Instance RouteList_ItemList : ItemList RouteList Route := {|
  Items := rtl_Items;
  withItems items l := {| rtl_TypeMeta := rtl_TypeMeta l; rtl_Items := items |};
  zeroItem := zeroRoute;
  Items_withItems := fun _ _ => eq_refl;
  GetTypeMeta_withItems := fun _ _ => eq_refl;
  Items_Set := fun _ _ => eq_refl
|}.

(** Computations over the heap. *)
Definition M (A : Type) : Type := gmap loc cell -> option (A * gmap loc cell).

Definition ret {A} (a : A) : M A := fun h => Some (a, h).

Definition bind {A B} (m : M A) (k : A -> M B) : M B :=
  fun h => match m h with
           | Some (a, h') => k a h'
           | None => None
           end.

Notation "'do!' x ':=' m 'in' k" := (bind m (fun x => k))
  (at level 10, x name, m at level 100, k at level 200).

(** [new(T)] initialised with [v]: a location the heap does not use yet. *)
Definition alloc {A} `{Stored A} (v : A) : M loc :=
  fun h => let p := fresh (dom h) in Some (p, <[p := toCell v]> h).

(** The dereference of [p]. *)
Definition load A `{Stored A} (p : loc) : M A :=
  fun h => match h !! p ≫= ofCell with
           | Some v => Some (v, h)
           | None => None
           end.

(** The assignment through [p] of [f] applied to what [p] points to. *)
Definition modify {A} `{Stored A} (p : loc) (f : A -> A) : M unit :=
  fun h => match h !! p ≫= ofCell with
           | Some v => Some (tt, <[p := toCell (f v)]> h)
           | None => None
           end.

(** [p.DeepCopy()] as the API types generate it: a new object with the same
    content that shares nothing with [p]. *)
Definition DeepCopy A `{Stored A} (p : loc) : M loc :=
  do! v := load A p in
  alloc v.

(** [func updateServingGvk(obj runtime.Object) error] on a pointer: the
    object is updated in place. *)
Definition updateServingGvkAt A `{Stored A} `{RuntimeObject A} (schemeGVK : Scheme)
    (obj : loc) : M (option error) :=
  do! v := load A obj in
  match updateServingGvk schemeGVK v with
  | Err err => ret (Some err)
  | Ok v' => do! _ := modify obj (fun _ : A => v') in ret None
  end.

(** [items[idx]]; out of range it panics. *)
Definition index {A} (items : list A) (idx : nat) : M A :=
  fun h => match items !! idx with
           | Some v => Some (v, h)
           | None => None
           end.

(** [for idx := range items { body }] for a slice of [count] items, from
    [idx] on, with the early [return nil, err] of the body. *)
Fixpoint forRangeFrom (idx count : nat) (body : nat -> M (option error)) : M (option error) :=
  match count with
  | 0 => ret None
  | S count =>
      do! err := body idx in
      match err with
      | Some err => ret (Some err)
      | None => forRangeFrom (S idx) count body
      end
  end.

Definition forRange (count : nat) (body : nat -> M (option error)) : M (option error) :=
  forRangeFrom 0 count body.

(** The typed client's [List] calls, by namespace: each answers with a
    pointer to the list it has decoded into the heap, or with an error. *)
Record ServingLister := {
  Services_List : string -> ListOptions -> M (result loc);
  Revisions_List : string -> ListOptions -> M (result loc);
  Routes_List : string -> ListOptions -> M (result loc)
}.

(** The facade as the list functions see it: [cl.client], [cl.namespace], and
    the two packages outside the verified sources. *)
Record listClient := {
  lister : ServingLister;
  lc_namespace : string;
  GetError : error -> error;
  schemeGVK : Scheme
}.

(** [func (cl *knServingClient) ListServices(config ...ListConfig)] *)
Definition ListServices (cl : listClient) (config : ListConfigs) : M (result loc) :=
  do! r := Services_List (lister cl) (lc_namespace cl) (toListOptions config) in
  match r with
  | Err err => ret (Err (GetError cl err))
  | Ok serviceList =>
      do! serviceListNew := DeepCopy ServiceList serviceList in
      do! err := updateServingGvkAt ServiceList (schemeGVK cl) serviceListNew in
      match err with
      | Some err => ret (Err err)
      | None =>
          do! l := load ServiceList serviceList in
          do! _ := modify serviceListNew
                     (withItems (replicate (length (sl_Items l)) zeroService)) in
          do! err := forRange (length (sl_Items l)) (fun idx =>
            do! l := load ServiceList serviceList in
            do! service := index (sl_Items l) idx in
            do! serviceClone := alloc service in
            do! err := updateServingGvkAt Service (schemeGVK cl) serviceClone in
            match err with
            | Some err => ret (Some err)
            | None =>
                do! clone := load Service serviceClone in
                do! _ := modify serviceListNew
                           (fun new : ServiceList => withItems (<[idx := clone]> (sl_Items new)) new) in
                ret None
            end) in
          match err with
          | Some err => ret (Err err)
          | None => ret (Ok serviceListNew)
          end
      end
  end.

(** [func updateServingGvkForRevisionList(revisionList)] *)
Definition updateServingGvkForRevisionList (schemeGVK : Scheme) (revisionList : loc)
  : M (result loc) :=
  do! revisionListNew := DeepCopy RevisionList revisionList in
  do! err := updateServingGvkAt RevisionList schemeGVK revisionListNew in
  match err with
  | Some err => ret (Err err)
  | None =>
      do! l := load RevisionList revisionList in
      do! _ := modify revisionListNew
                 (withItems (replicate (length (rl_Items l)) zeroRevision)) in
      do! err := forRange (length (rl_Items l)) (fun idx =>
        do! l := load RevisionList revisionList in
        do! item := index (rl_Items l) idx in
        do! revision := alloc item in
        do! err := updateServingGvkAt Revision schemeGVK revision in
        match err with
        | Some err => ret (Some err)
        | None =>
            do! clone := load Revision revision in
            do! _ := modify revisionListNew
                       (fun new : RevisionList => withItems (<[idx := clone]> (rl_Items new)) new) in
            ret None
        end) in
      match err with
      | Some err => ret (Err err)
      | None => ret (Ok revisionListNew)
      end
  end.

(** [func updateServingGvkForRouteList(routeList)] *)
Definition updateServingGvkForRouteList (schemeGVK : Scheme) (routeList : loc)
  : M (result loc) :=
  do! routeListNew := DeepCopy RouteList routeList in
  do! err := updateServingGvkAt RouteList schemeGVK routeListNew in
  match err with
  | Some err => ret (Err err)
  | None =>
      do! l := load RouteList routeList in
      do! _ := modify routeListNew
                 (withItems (replicate (length (rtl_Items l)) zeroRoute)) in
      do! err := forRange (length (rtl_Items l)) (fun idx =>
        do! l := load RouteList routeList in
        do! item := index (rtl_Items l) idx in
        do! revision := alloc item in
        do! err := updateServingGvkAt Route schemeGVK revision in
        match err with
        | Some err => ret (Some err)
        | None =>
            do! clone := load Route revision in
            do! _ := modify routeListNew
                       (fun new : RouteList => withItems (<[idx := clone]> (rtl_Items new)) new) in
            ret None
        end) in
      match err with
      | Some err => ret (Err err)
      | None => ret (Ok routeListNew)
      end
  end.

(** [func (cl *knServingClient) ListRevisions(config ...ListConfig)] *)
Definition ListRevisions (cl : listClient) (config : ListConfigs) : M (result loc) :=
  do! r := Revisions_List (lister cl) (lc_namespace cl) (toListOptions config) in
  match r with
  | Err err => ret (Err (GetError cl err))
  | Ok revisionList => updateServingGvkForRevisionList (schemeGVK cl) revisionList
  end.

(** [func (cl *knServingClient) ListRoutes(config ...ListConfig)] *)
Definition ListRoutes (cl : listClient) (config : ListConfigs) : M (result loc) :=
  do! r := Routes_List (lister cl) (lc_namespace cl) (toListOptions config) in
  match r with
  | Err err => ret (Err err)
  | Ok routeList => updateServingGvkForRouteList (schemeGVK cl) routeList
  end.

(** The common shape of the three list updates, over the list type [L] and
    its item type [A]: first the body of the loop, then the whole. *)
Definition cloneItem L A `{Stored L} `{Stored A} `{RuntimeObject L}
    `{RuntimeObject A} `{!ItemList L A} (schemeGVK : Scheme) (list listNew : loc)
    (idx : nat) : M (option error) :=
  do! l := load L list in
  do! item := index (Items l) idx in
  do! itemNew := alloc item in
  do! err := updateServingGvkAt A schemeGVK itemNew in
  match err with
  | Some err => ret (Some err)
  | None =>
      do! clone := load A itemNew in
      do! _ := modify listNew
                 (fun new : L => withItems (<[idx := clone]> (Items new)) new) in
      ret None
  end.

Definition updateGvkForList L A `{Stored L} `{Stored A} `{RuntimeObject L}
    `{RuntimeObject A} `{!ItemList L A} (schemeGVK : Scheme) (list : loc) : M (result loc) :=
  do! listNew := DeepCopy L list in
  do! err := updateServingGvkAt L schemeGVK listNew in
  match err with
  | Some err => ret (Err err)
  | None =>
      do! l := load L list in
      do! _ := modify listNew (withItems (replicate (length (Items l)) (zeroItem (L := L)))) in
      do! err := forRange (length (Items l)) (cloneItem L A schemeGVK list listNew) in
      match err with
      | Some err => ret (Err err)
      | None => ret (Ok listNew)
      end
  end.

(** What a list call has done between the heap [h1] the typed client left
    and the heap [h2] it returns in, [p0] being the typed client's list and
    [p] the list returned: [p] is a new object holding as many items as [p0],
    item for item the original with its kind set; and every object of [h1],
    the list at [p0] with its items among them, is in [h2] as it was. *)
Definition listedAs L A `{Stored L} `{RuntimeObject L} `{RuntimeObject A} `{!ItemList L A}
    (schemeGVK : Scheme) (h1 h2 : gmap loc cell) (p0 p : loc) : Prop :=
  exists l0 lnew : L,
    h1 !! p0 = Some (toCell l0)
    /\ h2 !! p = Some (toCell lnew)
    /\ h1 !! p = None
    /\ length (Items lnew) = length (Items l0)
    /\ (forall (i : nat) (item : A), Items l0 !! i = Some item ->
          exists gvk, schemeGVK (goType A) = Ok gvk
                      /\ Items lnew !! i = Some (SetGroupVersionKind gvk item))
    /\ h2 !! p0 = Some (toCell l0)
    /\ (forall (q : loc) (c : cell), h1 !! q = Some c -> h2 !! q = Some c).

(** ** The readiness waiter

    Package [wait], which implements [Wait], is outside the verified
    sources.  The waiter below is written from its specification: the condition
    model, the event stream of one subscription, and the state machine that
    consumes it under a deadline.  Time is counted in ticks. *)
Module ReadinessWaiter.

(** Modelled from the spec: the readiness verdict of package [wait], derived
    from a condition set: [Ready], [Failed] with its reason, or [Unknown]. *)
Inductive Verdict :=
| Ready
| Failed (reason : string)
| Unknown.

(** Modelled from the spec: the condition set the waiter of package [wait]
    decides on, keyed by condition type; the last write for a type wins. *)
Definition ConditionSet (conditions : Conditions) : gmap string Condition :=
  fold_left (fun set c => <[cond_Type c := c]> set) conditions ∅.

(** Modelled from the spec: [IsReady] of the condition model, which holds
    when a condition of type [Ready] exists with status true. *)
Definition IsReady (set : gmap string Condition) : bool :=
  match set !! "Ready" with
  | Some c => match cond_Status c with ConditionTrue => true | _ => false end
  | None => false
  end.

(** Modelled from the spec: [IsFailed] of the condition model, which holds
    when the condition of type [Ready] has status false; its reason is passed
    through. *)
Definition IsFailed (set : gmap string Condition) : bool * string :=
  match set !! "Ready" with
  | Some c =>
      match cond_Status c with
      | ConditionFalse => (true, cond_Reason c)
      | _ => (false, EmptyString)
      end
  | None => (false, EmptyString)
  end.

(** Modelled from the spec: the verdict of a condition set, computed afresh
    from the set; every state that is neither ready nor failed is still
    progressing. *)
Definition verdict (conditions : Conditions) : Verdict :=
  let set := ConditionSet conditions in
  if IsReady set then Ready
  else if (IsFailed set).1 then Failed (IsFailed set).2
  else Unknown.

(** Modelled from the spec: the kinds of event the event stream adapter of
    package [wait] tells apart. *)
Inductive EventKind := ADDED | MODIFIED | DELETED | ERROR.

Record Event := { ev_Kind : EventKind; ev_Object : Object }.

(** The name of the resource an object is. *)
Definition objectName (obj : Object) : string :=
  match obj with
  | ObjService service => svc_Name service
  | ObjRevision revision => rev_Name revision
  | ObjRoute route => route_Name route
  | ObjConfiguration configuration => cfg_Name configuration
  | _ => EmptyString
  end.

(** Modelled from the spec: the event stream of one subscription, as the
    waiter of package [wait] reads it.  The next event
    arrives [after] ticks of waiting; or the channel is closed by the other
    side after [after] ticks; or nothing arrives any more. *)
Inductive Stream :=
| Next (after : nat) (ev : Event) (rest : Stream)
| Closed (after : nat)
| Silent.

(** Why a wait ended in [Errored]. *)
Inductive Cause :=
| StreamError
| StreamClosed
| WatchFailed (err : error)
| GetFailed (err : error)
| TypeMismatch (err : error).

(** Modelled from the spec: the terminal results of [Wait] of package
    [wait]; a timeout carries the last non-terminal [Ready] condition seen, if
    any. *)
Inductive WaitResult :=
| Success
| Failure (reason : string)
| TimedOut (last : option Condition)
| Errored (cause : Cause).

(** Modelled from the spec: the collaborator [Wait] of package [wait] talks
    to.  [current] is its [Get];
    [answers n] is what its [n]-th [Watch] call answers.  It records the
    filter of every [Watch] call, the subscriptions it has opened, and those
    that were stopped, each in order. *)
Record Source := {
  current : string -> result Object;
  answers : nat -> result Stream;
  watched : list ListOptions;
  opened : list nat;
  stopped : list nat
}.

(** A subscription: its number and its stream. *)
Definition Subscription : Type := nat * Stream.

(** Modelled from the spec: [Watch] of the collaborator, which opens a
    subscription or fails. *)
Definition Watch (opts : ListOptions) (src : Source) : result Subscription * Source :=
  let id := length (watched src) in
  match answers src id with
  | Err err =>
      (Err err,
       {| current := current src; answers := answers src;
          watched := watched src ++ [opts];
          opened := opened src; stopped := stopped src |})
  | Ok stream =>
      (Ok (id, stream),
       {| current := current src; answers := answers src;
          watched := watched src ++ [opts];
          opened := opened src ++ [id]; stopped := stopped src |})
  end.

(** Modelled from the spec: the closing of a subscription by its consumer,
    which never fails. *)
Definition Stop (sub : Subscription) (src : Source) : Source :=
  {| current := current src; answers := answers src;
     watched := watched src;
     opened := opened src; stopped := stopped src ++ [sub.1] |}.

(** The subscriptions still open. *)
Definition live (src : Source) : list nat :=
  filter (fun id => id ∉ stopped src) (opened src).

(** Modelled from the spec: the filter [Wait] of package [wait] subscribes
    with, scoped to the name of the resource as a field selector. *)
Definition nameFilter (name : string) : ListOptions := toListOptions [WithName name].

(** How the consumption of one subscription ends: with a terminal result, or
    with the stream broken, some budget left and the last condition seen. *)
Inductive Consumed :=
| Done (r : WaitResult)
| Broken (cause : Cause) (remaining : nat) (last : option Condition).

(** Modelled from the spec: the loop of [Wait] of package [wait] over one
    subscription, with
    [remaining] ticks to the deadline.  The next event and the deadline race;
    an event for another resource is ignored; a deletion is a failure; an
    error event or the closing of the channel breaks the stream; an event
    that is not terminal continues the loop and leaves the deadline as it
    is. *)
Fixpoint consume (extract : ConditionsExtractor) (name : string) (stream : Stream)
    (remaining : nat) (last : option Condition) : Consumed :=
  match stream with
  | Silent => Done (TimedOut last)
  | Closed after =>
      if after <? remaining then Broken StreamClosed (remaining - after) last
      else Done (TimedOut last)
  | Next after ev rest =>
      if after <? remaining then
        match ev_Kind ev with
        | ERROR => Broken StreamError (remaining - after) last
        | DELETED =>
            if objectName (ev_Object ev) !=? name then
              consume extract name rest (remaining - after) last
            else Done (Failure "deleted")
        | ADDED | MODIFIED =>
            if objectName (ev_Object ev) !=? name then
              consume extract name rest (remaining - after) last
            else
              match extract (ev_Object ev) with
              | Err err => Done (Errored (TypeMismatch err))
              | Ok conditions =>
                  match verdict conditions with
                  | Ready => Done Success
                  | Failed reason => Done (Failure reason)
                  | Unknown =>
                      consume extract name rest (remaining - after)
                        (match ConditionSet conditions !! "Ready" with
                         | Some c => Some c
                         | None => last
                         end)
                  end
              end
        end
      else Done (TimedOut last)
  end.

(** Modelled from the spec: [Wait] of package [wait] under a zero timeout,
    which checks the current state once and waits for no event. *)
Definition checkOnce (extract : ConditionsExtractor) (name : string) (src : Source)
  : WaitResult :=
  match current src name with
  | Err err => Errored (GetFailed err)
  | Ok obj =>
      match extract obj with
      | Err err => Errored (TypeMismatch err)
      | Ok conditions =>
          match verdict conditions with
          | Ready => Success
          | Failed reason => Failure reason
          | Unknown => TimedOut (ConditionSet conditions !! "Ready")
          end
      end
  end.

(** Modelled from the spec: the waiter [NewWaitForReady] of package [wait]
    builds, which holds the kind of resource and the condition extractor for
    its lifetime. *)
Record Waiter := {
  kind : string;
  extract : ConditionsExtractor
}.

(** Modelled from the spec: [Wait(name, timeout)] of package [wait], whose
    code is outside the verified sources.  It subscribes and
    consumes the subscription; a first broken stream is answered by one
    re-subscription under what is left of the deadline, a second one ends
    the wait with [Errored]; the subscription is stopped on every path. *)
Definition Wait (w : Waiter) (name : string) (timeout : nat) (src : Source)
  : WaitResult * Source :=
  if timeout =? 0 then (checkOnce (extract w) name src, src)
  else
    match Watch (nameFilter name) src with
    | (Err err, src) => (Errored (WatchFailed err), src)
    | (Ok sub, src) =>
        match consume (extract w) name sub.2 timeout None with
        | Done r => (r, Stop sub src)
        | Broken _ remaining last =>
            let src := Stop sub src in
            match Watch (nameFilter name) src with
            | (Err err, src) => (Errored (WatchFailed err), src)
            | (Ok sub, src) =>
                match consume (extract w) name sub.2 remaining last with
                | Done r => (r, Stop sub src)
                | Broken cause _ _ => (Errored cause, Stop sub src)
                end
            end
        end
    end.

(** The world after a first subscription has broken and been stopped. *)
Definition afterFirst (name : string) (src : Source) : Source :=
  {| current := current src; answers := answers src;
     watched := watched src ++ [nameFilter name];
     opened := opened src ++ [length (watched src)];
     stopped := stopped src ++ [length (watched src)] |}.

(** An event that does not end the wait: it is for another resource, or its
    conditions give the verdict [Unknown]. *)
Definition progressing (extract : ConditionsExtractor) (name : string) (ev : Event) : Prop :=
  match ev_Kind ev with
  | ERROR => False
  | DELETED => objectName (ev_Object ev) <> name
  | ADDED | MODIFIED =>
      objectName (ev_Object ev) <> name
      \/ exists conditions,
           extract (ev_Object ev) = Ok conditions /\ verdict conditions = Unknown
  end.

(** The stream delivers events that do not end the wait and then, [elapsed]
    ticks after the subscription, an error event or the closing of the
    channel. *)
Inductive breaksAfter (extract : ConditionsExtractor) (name : string) : Stream -> nat -> Prop :=
| breaks_closed (after : nat) :
    breaksAfter extract name (Closed after) after
| breaks_error (after : nat) (obj : Object) (rest : Stream) :
    breaksAfter extract name (Next after {| ev_Kind := ERROR; ev_Object := obj |} rest) after
| breaks_later (after : nat) (ev : Event) (rest : Stream) (elapsed : nat) :
    progressing extract name ev ->
    breaksAfter extract name rest elapsed ->
    breaksAfter extract name (Next after ev rest) (after + elapsed).

End ReadinessWaiter.

(** ** Test doubles

    Concrete collaborators on which the statements below are exercised: a
    cluster that is a finite map from (namespace, name) to the stored
    revision, a scheme that knows every type, and the simplest helpers that
    fit the signatures of package [serving]. *)
Module Double.

Definition Cluster := gmap (string * string) Revision.

(** [Get] answers with the stored revision or with the not-found error of the
    API machinery. *)
Definition fakeServing : ServingV1alpha1Interface Cluster :=
  {| Revisions_Get namespace name (w : Cluster) :=
       match w !! (namespace, name) with
       | Some revision => (Ok revision, w)
       | None => (Err (NewNotFound "revisions" name), w)
       end |}.

Definition kindName (t : GoType) : string :=
  match t with
  | ServiceT => "Service" | ServiceListT => "ServiceList"
  | RevisionT => "Revision" | RevisionListT => "RevisionList"
  | RouteT => "Route" | RouteListT => "RouteList"
  | ConfigurationT => "Configuration"
  end.

Definition servingScheme : Scheme :=
  fun t => Ok {| Kind := kindName t; APIVersion := "serving.knative.dev/v1alpha1" |}.

(** A scheme in which nothing is registered. *)
Definition emptyScheme : Scheme :=
  fun t => Err (errorString "no kind is registered for the type").

Definition passError (err : error) : error := err.

Definition templateOf (service : Service) : result RevisionTemplateSpec :=
  match Template (svc_Spec service) with
  | Some template => Ok template
  | None => Err (errorString "no template")
  end.

Definition containerOfSpec (revisionSpec : RevisionSpec) : result Container :=
  match DeprecatedContainer revisionSpec with
  | Some container => Ok container
  | None =>
      match Containers revisionSpec with
      | container :: _ => Ok container
      | [] => Err (errorString "no container")
      end
  end.

Definition containerOfTemplate (template : RevisionTemplateSpec) : result Container :=
  containerOfSpec (tmpl_Spec template).

Definition collaborators : Collaborators Cluster :=
  knServingCollaborators passError servingScheme templateOf containerOfSpec
    containerOfTemplate (NewKnServingClient fakeServing "default").

Definition noTypeMeta : TypeMeta := {| Kind := EmptyString; APIVersion := EmptyString |}.

Definition specOf (image : string) : RevisionSpec :=
  {| DeprecatedContainer := None;
     Containers := [ {| ctr_Name := "user-container"; Image := image |} ] |}.

Definition revisionOf (name image : string) : Revision :=
  {| rev_TypeMeta := noTypeMeta; rev_Name := name; rev_Spec := specOf image |}.

(** A service [hello] whose template is named [templateName], asks for
    [image], and whose status points at [latestCreated]. *)
Definition serviceOf (templateName image latestCreated : string) : Service :=
  {| svc_TypeMeta := noTypeMeta;
     svc_Name := "hello";
     svc_Spec := {| Template := Some {| tmpl_Name := templateName; tmpl_Spec := specOf image |} |};
     svc_Status := {| status_Conditions := [];
                      LatestReadyRevisionName := EmptyString;
                      LatestCreatedRevisionName := latestCreated |} |}.

(** A cluster holding the single revision [hello-1] with image [img:1]. *)
Definition cluster1 : Cluster :=
  {[ ("default", "hello-1") := revisionOf "hello-1" "img:1" ]}.

(** A typed client whose [List] calls decode a fixed list into a new object
    of the heap. *)
Definition decode {A} `{Stored A} (v : A) : M (result loc) :=
  do! p := alloc v in ret (Ok p).

Definition fakeLister : ServingLister :=
  {| Services_List _ _ :=
       decode {| sl_TypeMeta := noTypeMeta;
                 sl_Items := [serviceOf "hello-1" "img:1" "hello-1";
                              serviceOf EmptyString "img:2" "hello-1"] |};
     Revisions_List _ _ :=
       decode {| rl_TypeMeta := noTypeMeta;
                 rl_Items := [revisionOf "hello-1" "img:1"; revisionOf "hello-2" "img:2"] |};
     Routes_List _ _ :=
       decode {| rtl_TypeMeta := noTypeMeta;
                 rtl_Items := [ {| route_TypeMeta := noTypeMeta; route_Name := "hello";
                                   route_URL := "http://hello.default.example.com" |} ] |} |}.

Definition lists : listClient :=
  {| lister := fakeLister; lc_namespace := "default";
     GetError := passError; schemeGVK := servingScheme |}.

(** How the doubles print an object under the verb [%v]. *)
Definition fmtV (obj : Object) : string :=
  match obj with
  | ObjNil => "<nil>"
  | ObjService service => "&{" +:+ svc_Name service +:+ "}"
  | ObjRevision revision => "&{" +:+ rev_Name revision +:+ "}"
  | ObjRoute route => "&{" +:+ route_Name route +:+ "}"
  | ObjConfiguration configuration => "&{" +:+ cfg_Name configuration +:+ "}"
  | ObjServiceList _ | ObjRevisionList _ | ObjRouteList _ => "&{[]}"
  | ObjOther typeName => typeName
  end.

(** The service [hello] with its [Ready] condition at [status]. *)
Definition helloWith (status : ConditionStatus) : Object :=
  ObjService
    {| svc_TypeMeta := noTypeMeta;
       svc_Name := "hello";
       svc_Spec := {| Template := None |};
       svc_Status :=
         {| status_Conditions :=
              [ {| cond_Type := "Ready"; cond_Status := status;
                   cond_Reason := "RevisionMissing"; cond_Message := EmptyString |} ];
            LatestReadyRevisionName := EmptyString;
            LatestCreatedRevisionName := EmptyString |} |}.

Definition serviceWaiter : ReadinessWaiter.Waiter :=
  {| ReadinessWaiter.kind := "service";
     ReadinessWaiter.extract := serviceConditionExtractor fmtV |}.

(** A watch whose first subscription reports the service as progressing and
    is then closed, and whose second one starts with an error event. *)
Definition flakySource : ReadinessWaiter.Source :=
  {| ReadinessWaiter.current := fun _ => Ok (helloWith ConditionUnknown);
     ReadinessWaiter.answers := fun n =>
       match n with
       | 0 => Ok (ReadinessWaiter.Next 1
                    {| ReadinessWaiter.ev_Kind := ReadinessWaiter.MODIFIED;
                       ReadinessWaiter.ev_Object := helloWith ConditionUnknown |}
                    (ReadinessWaiter.Closed 2))
       | 1 => Ok (ReadinessWaiter.Next 1
                    {| ReadinessWaiter.ev_Kind := ReadinessWaiter.ERROR;
                       ReadinessWaiter.ev_Object := ObjOther "Status" |}
                    ReadinessWaiter.Silent)
       | _ => Ok (ReadinessWaiter.Next 1
                    {| ReadinessWaiter.ev_Kind := ReadinessWaiter.MODIFIED;
                       ReadinessWaiter.ev_Object := helloWith ConditionTrue |}
                    ReadinessWaiter.Silent)
       end;
     ReadinessWaiter.watched := [];
     ReadinessWaiter.opened := [];
     ReadinessWaiter.stopped := [] |}.

End Double.

(** ** More of the facade *)

(** The names the run has asked [GetRevision] for, in order. *)
Definition fetches (log : list Call) : list string :=
  omap (fun c => match c with CallGetRevision name => Some name | _ => None end) log.

(** The typed client's calls on single objects, by namespace, over the heap:
    [Get] answers with a pointer to the object it has decoded; [Create] and
    [Update] take the caller's object and answer with a pointer to the object
    the server sent back; [Delete] answers with an error or with nothing. *)
Record ServingObjects := {
  Services_Get : string -> string -> M (result loc);
  Services_Create : string -> loc -> M (result loc);
  Services_Update : string -> loc -> M (result loc);
  Services_Delete : string -> string -> M (option error);
  Routes_Get : string -> string -> M (result loc);
  Revisions_Delete : string -> string -> M (option error)
}.

(** [func (cl *knServingClient) GetService(name string)] *)
Definition GetService (objects : ServingObjects) (cl : listClient) (name : string)
  : M (result loc) :=
  do! r := Services_Get objects (lc_namespace cl) name in
  match r with
  | Err err => ret (Err (GetError cl err))
  | Ok service =>
      do! err := updateServingGvkAt Service (schemeGVK cl) service in
      match err with
      | Some err => ret (Err err)
      | None => ret (Ok service)
      end
  end.

(** [func (cl *knServingClient) GetRoute(name string)] *)
Definition GetRoute (objects : ServingObjects) (cl : listClient) (name : string)
  : M (result loc) :=
  do! r := Routes_Get objects (lc_namespace cl) name in
  match r with
  | Err err => ret (Err err)
  | Ok route =>
      do! err := updateServingGvkAt Route (schemeGVK cl) route in
      match err with
      | Some err => ret (Err err)
      | None => ret (Ok route)
      end
  end.

(** [func (cl *knServingClient) CreateService(service *v1alpha1.Service) error] *)
Definition CreateService (objects : ServingObjects) (cl : listClient) (service : loc)
  : M (option error) :=
  do! r := Services_Create objects (lc_namespace cl) service in
  match r with
  | Err err => ret (Some (GetError cl err))
  | Ok _ => updateServingGvkAt Service (schemeGVK cl) service
  end.

(** [func (cl *knServingClient) UpdateService(service *v1alpha1.Service) error] *)
Definition UpdateService (objects : ServingObjects) (cl : listClient) (service : loc)
  : M (option error) :=
  do! r := Services_Update objects (lc_namespace cl) service in
  match r with
  | Err err => ret (Some err)
  | Ok _ => updateServingGvkAt Service (schemeGVK cl) service
  end.

(** [func (cl *knServingClient) DeleteService(serviceName string) error] *)
Definition DeleteService (objects : ServingObjects) (cl : listClient) (serviceName : string)
  : M (option error) :=
  do! err := Services_Delete objects (lc_namespace cl) serviceName in
  match err with
  | Some err => ret (Some (GetError cl err))
  | None => ret None
  end.

(** [func (cl *knServingClient) DeleteRevision(name string) error] *)
Definition DeleteRevision (objects : ServingObjects) (cl : listClient) (name : string)
  : M (option error) :=
  do! err := Revisions_Delete objects (lc_namespace cl) name in
  match err with
  | Some err => ret (Some (GetError cl err))
  | None => ret None
  end.

(** The field set holds at most the name, the label set at most the service. *)
Definition nameOnly (set : gmap string string) : Prop :=
  set = ∅ \/ exists name, set = {[ "metadata.name" := name ]}.

Definition serviceOnly (set : gmap string string) : Prop :=
  set = ∅ \/ exists service, set = {[ ServiceLabelKey := service ]}.

(** ** More test doubles *)
Module Sample.

(** A service without a template, from which no template can be extracted. *)
Definition bare : Service :=
  {| svc_TypeMeta := Double.noTypeMeta; svc_Name := "bare";
     svc_Spec := {| Template := None |};
     svc_Status := {| status_Conditions := []; LatestReadyRevisionName := EmptyString;
                      LatestCreatedRevisionName := "bare-1" |} |}.

(** A cluster whose revision [empty-1] has no container. *)
Definition cluster2 : Double.Cluster :=
  {[ ("default", "empty-1") :=
       {| rev_TypeMeta := Double.noTypeMeta; rev_Name := "empty-1";
          rev_Spec := {| DeprecatedContainer := None; Containers := [] |} |} ]}.

(** The facade of the doubles over a scheme that knows no type. *)
Definition unregistered : Collaborators Double.Cluster :=
  knServingCollaborators Double.passError Double.emptyScheme Double.templateOf
    Double.containerOfSpec Double.containerOfTemplate
    (NewKnServingClient Double.fakeServing "default").

Definition hello : Service := Double.serviceOf "hello-1" "img:1" "hello-1".

Definition helloRoute : Route :=
  {| route_TypeMeta := Double.noTypeMeta; route_Name := "hello";
     route_URL := "http://hello.default.example.com" |}.

(** A typed client that decodes [hello] and its route on [Get], sends [hello]
    back on [Create] and [Update], and deletes without error. *)
Definition objects : ServingObjects :=
  {| Services_Get _ _ := Double.decode hello;
     Services_Create _ _ := Double.decode hello;
     Services_Update _ _ := Double.decode hello;
     Services_Delete _ _ := ret None;
     Routes_Get _ _ := Double.decode helloRoute;
     Revisions_Delete _ _ := ret None |}.

(** The list client of the doubles over a scheme that knows no type. *)
Definition unregisteredLists : listClient :=
  {| lister := Double.fakeLister; lc_namespace := "default";
     GetError := Double.passError; schemeGVK := Double.emptyScheme |}.

(** A scheme that knows the list types only. *)
Definition listsOnly : Scheme :=
  fun t =>
    match t with
    | ServiceListT | RevisionListT | RouteListT => Double.servingScheme t
    | _ => Double.emptyScheme t
    end.

(** A typed client whose lists are empty, under the scheme [listsOnly]. *)
Definition emptyLists : listClient :=
  {| lister :=
       {| Services_List _ _ :=
            Double.decode {| sl_TypeMeta := Double.noTypeMeta; sl_Items := [] |};
          Revisions_List _ _ :=
            Double.decode {| rl_TypeMeta := Double.noTypeMeta; rl_Items := [] |};
          Routes_List _ _ :=
            Double.decode {| rtl_TypeMeta := Double.noTypeMeta; rtl_Items := [] |} |};
     lc_namespace := "default";
     GetError := Double.passError; schemeGVK := listsOnly |}.

(** A typed client that cannot reach the cluster. *)
Definition refused : error := errorString "connection refused".

Definition down : ServingObjects :=
  {| Services_Get _ _ := ret (Err refused);
     Services_Create _ _ := ret (Err refused);
     Services_Update _ _ := ret (Err refused);
     Services_Delete _ _ := ret (Some refused);
     Routes_Get _ _ := ret (Err refused);
     Revisions_Delete _ _ := ret (Some refused) |}.

(** A facade whose [GetError] tells every error to be a missing CRD. *)
Definition wrapping : listClient :=
  {| lister := Double.fakeLister; lc_namespace := "default";
     GetError := fun _ => errorString "no Knative serving API found on the backend";
     schemeGVK := Double.servingScheme |}.

(** How the doubles print what the interface holds. *)
Definition fmtValue (obj : InterfaceValue) : string :=
  match obj with
  | NilService => "<nil>"
  | Holds obj => Double.fmtV obj
  end.

(** A heap that holds the caller's service [bare] at its first location. *)
Definition callerHeap : gmap loc cell := {[ 1%positive := CService bare ]}.

End Sample.

(** * Properties *)

(** ** Strings *)

Lemma strne_true (a b : string) : (a !=? b) = true <-> a <> b.
Proof.
  unfold strne. rewrite negb_true_iff. split.
  - intros H ->. rewrite String.eqb_refl in H. discriminate.
  - intros H. destruct (String.eqb a b) eqn:E; [|reflexivity].
    apply String.eqb_eq in E. contradiction.
Qed.

Lemma strne_false (a b : string) : (a !=? b) = false <-> a = b.
Proof.
  unfold strne. rewrite negb_false_iff. apply String.eqb_eq.
Qed.


(** ** Base-revision resolution *)

Section BaseRevision.
Context {W : Type}.
Variable cl : Collaborators W.

Lemma runFrom_Ret {A} (a : A) (w : W) (log : list Call) :
  runFrom cl (Ret a) w log = {| returned := a; world := w; calls := log |}.
Proof. reflexivity. Qed.

Lemma runFrom_Vis {A X} (op : Op X) (k : X -> Prog A) (w : W) (log : list Call) :
  runFrom cl (Vis op k) w log =
  runFrom cl (k (perform cl op w).1) (perform cl op w).2 (log ++ [callOf op]).
Proof. simpl. destruct (perform cl op w); reflexivity. Qed.

(** Up to the branch on the template name every run is the same. *)
Lemma GetBaseRevision_template (service : Service) (template : RevisionTemplateSpec) (w : W) :
  RevisionTemplateOfService cl service = Ok template ->
  GetBaseRevision cl service w =
  runFrom cl
    (if tmpl_Name template !=? EmptyString then
       Vis (OpGetRevision (tmpl_Name template)) Ret
     else if LatestCreatedRevisionName (svc_Status service) !=? EmptyString then
       try! latestCreated := OpGetRevision (LatestCreatedRevisionName (svc_Status service)) in
       try! latestContainer := OpContainerOfRevisionSpec (rev_Spec latestCreated) in
       try! container := OpContainerOfRevisionTemplate template in
       if Image latestContainer !=? Image container then
         Ret (Err noBaseRevisionError)
       else
         Ret (Ok latestCreated)
     else
       Ret (Err noBaseRevisionError))
    w [CallRevisionTemplateOfService service].
Proof.
  intros Ht. unfold GetBaseRevision, run, getBaseRevision.
  rewrite runFrom_Vis. simpl. rewrite Ht. reflexivity.
Qed.

(** C1: when the template of the service carries a name, [GetBaseRevision]
    returns what [GetRevision] returns for that name, value or error, and
    leaves the collaborator as that one call left it; the run consists of the
    template extraction and this one fetch, so there is no fetch through the
    latest-created pointer and no container is extracted for an image
    comparison. *)
Theorem GetBaseRevision_explicit_name
    (service : Service) (template : RevisionTemplateSpec) (w : W) :
  RevisionTemplateOfService cl service = Ok template ->
  tmpl_Name template <> EmptyString ->
  (returned (GetBaseRevision cl service w), world (GetBaseRevision cl service w))
    = GetRevision cl (tmpl_Name template) w
  /\ calls (GetBaseRevision cl service w)
    = [CallRevisionTemplateOfService service; CallGetRevision (tmpl_Name template)]
  /\ existsb isImageComparison (calls (GetBaseRevision cl service w)) = false.
Proof.
  intros Ht Hname.
  rewrite (GetBaseRevision_template _ _ _ Ht).
  apply strne_true in Hname. rewrite Hname.
  rewrite runFrom_Vis. simpl.
  destruct (GetRevision cl (tmpl_Name template) w) as [r w'].
  repeat split.
Qed.

(** C2: with no name on the template and a latest-created pointer whose
    revision is fetched, the images of the fetched revision and of the
    template decide: different images give the no-base-revision error and no
    revision, equal images give the fetched revision and no error. *)
Theorem GetBaseRevision_latest_created
    (service : Service) (template : RevisionTemplateSpec) (latestCreated : Revision)
    (latestContainer container : Container) (w w' : W) :
  RevisionTemplateOfService cl service = Ok template ->
  tmpl_Name template = EmptyString ->
  LatestCreatedRevisionName (svc_Status service) <> EmptyString ->
  GetRevision cl (LatestCreatedRevisionName (svc_Status service)) w = (Ok latestCreated, w') ->
  ContainerOfRevisionSpec cl (rev_Spec latestCreated) = Ok latestContainer ->
  ContainerOfRevisionTemplate cl template = Ok container ->
  (Image latestContainer <> Image container ->
     returned (GetBaseRevision cl service w) = Err noBaseRevisionError)
  /\ (Image latestContainer = Image container ->
     returned (GetBaseRevision cl service w) = Ok latestCreated).
Proof.
  intros Ht Hname Hptr Hget Hlc Hc.
  rewrite (GetBaseRevision_template _ _ _ Ht).
  apply strne_false in Hname. apply strne_true in Hptr. rewrite Hname, Hptr.
  rewrite runFrom_Vis. simpl. rewrite Hget. simpl.
  rewrite Hlc. simpl. rewrite Hc. simpl.
  split; intros Himg.
  - apply strne_true in Himg. rewrite Himg. reflexivity.
  - apply strne_false in Himg. rewrite Himg. reflexivity.
Qed.

(** C3: with no name on the template and an empty latest-created pointer,
    [GetBaseRevision] fails with [noBaseRevisionError], whose dynamic type is
    [NoBaseRevisionError]; no fetch is attempted, and the error is not a
    not-found error of any resource and name. *)
Theorem GetBaseRevision_no_pointer
    (service : Service) (template : RevisionTemplateSpec) (w : W) :
  RevisionTemplateOfService cl service = Ok template ->
  tmpl_Name template = EmptyString ->
  LatestCreatedRevisionName (svc_Status service) = EmptyString ->
  returned (GetBaseRevision cl service w) = Err noBaseRevisionError
  /\ IsNoBaseRevisionError noBaseRevisionError = true
  /\ IsNotFound noBaseRevisionError = false
  /\ (forall resource name : string, noBaseRevisionError <> NewNotFound resource name)
  /\ world (GetBaseRevision cl service w) = w
  /\ calls (GetBaseRevision cl service w) = [CallRevisionTemplateOfService service].
Proof.
  intros Ht Hname Hptr.
  rewrite (GetBaseRevision_template _ _ _ Ht).
  apply strne_false in Hname. apply strne_false in Hptr. rewrite Hname, Hptr.
  simpl. repeat split. intros resource name. discriminate.
Qed.

(** C4: when the template names a revision and the collaborator answers the
    fetch of that name with an error, [GetBaseRevision] returns that very
    error; a not-found error among them is not the no-base-revision error. *)
Theorem GetBaseRevision_not_found_verbatim
    (service : Service) (template : RevisionTemplateSpec) (err : error) (w w' : W) :
  RevisionTemplateOfService cl service = Ok template ->
  tmpl_Name template <> EmptyString ->
  GetRevision cl (tmpl_Name template) w = (Err err, w') ->
  returned (GetBaseRevision cl service w) = Err err
  /\ world (GetBaseRevision cl service w) = w'
  /\ (IsNotFound err = true -> err <> noBaseRevisionError).
Proof.
  intros Ht Hname Hget.
  rewrite (GetBaseRevision_template _ _ _ Ht).
  apply strne_true in Hname. rewrite Hname.
  rewrite runFrom_Vis. simpl. rewrite Hget. simpl.
  repeat split. intros Hnf ->. discriminate.
Qed.

End BaseRevision.

(** The service names revision [hello-1], which the cluster holds: the
    fetch by name is all that happens. *)
Lemma GetBaseRevision_explicit_name_witness :
  (returned (GetBaseRevision Double.collaborators
               (Double.serviceOf "hello-1" "img:2" "hello-0") Double.cluster1),
   world (GetBaseRevision Double.collaborators
            (Double.serviceOf "hello-1" "img:2" "hello-0") Double.cluster1))
    = GetRevision Double.collaborators "hello-1" Double.cluster1
  /\ calls (GetBaseRevision Double.collaborators
              (Double.serviceOf "hello-1" "img:2" "hello-0") Double.cluster1)
    = [CallRevisionTemplateOfService (Double.serviceOf "hello-1" "img:2" "hello-0");
       CallGetRevision "hello-1"]
  /\ existsb isImageComparison
       (calls (GetBaseRevision Double.collaborators
                 (Double.serviceOf "hello-1" "img:2" "hello-0") Double.cluster1)) = false.
Proof.
  apply (GetBaseRevision_explicit_name Double.collaborators
           (Double.serviceOf "hello-1" "img:2" "hello-0")
           {| tmpl_Name := "hello-1"; tmpl_Spec := Double.specOf "img:2" |}
           Double.cluster1).
  - reflexivity.
  - discriminate.
Defined.

(** The latest-created revision [hello-1] runs [img:1], as the template
    asks: it is the base revision. *)
Lemma GetBaseRevision_latest_created_witness :
  returned (GetBaseRevision Double.collaborators
              (Double.serviceOf EmptyString "img:1" "hello-1") Double.cluster1)
    = Ok (SetGroupVersionKind
            {| Kind := "Revision"; APIVersion := "serving.knative.dev/v1alpha1" |}
            (Double.revisionOf "hello-1" "img:1")).
Proof.
  refine (proj2 (GetBaseRevision_latest_created Double.collaborators
           (Double.serviceOf EmptyString "img:1" "hello-1")
           {| tmpl_Name := EmptyString; tmpl_Spec := Double.specOf "img:1" |}
           _ {| ctr_Name := "user-container"; Image := "img:1" |}
           {| ctr_Name := "user-container"; Image := "img:1" |}
           Double.cluster1 Double.cluster1 _ _ _ _ _ _) _).
  - reflexivity.
  - reflexivity.
  - discriminate.
  - reflexivity.
  - reflexivity.
  - reflexivity.
  - reflexivity.
Defined.

(** The template asks for [img:2] while the latest-created revision still
    runs [img:1]: there is no base revision. *)
Example GetBaseRevision_stale_latest_created :
  returned (GetBaseRevision Double.collaborators
              (Double.serviceOf EmptyString "img:2" "hello-1") Double.cluster1)
    = Err noBaseRevisionError.
Proof. reflexivity. Qed.

(** A service with neither a template name nor a latest-created pointer. *)
Lemma GetBaseRevision_no_pointer_witness :
  returned (GetBaseRevision Double.collaborators
              (Double.serviceOf EmptyString "img:1" EmptyString) Double.cluster1)
    = Err noBaseRevisionError
  /\ IsNoBaseRevisionError noBaseRevisionError = true
  /\ IsNotFound noBaseRevisionError = false
  /\ (forall resource name : string, noBaseRevisionError <> NewNotFound resource name)
  /\ world (GetBaseRevision Double.collaborators
              (Double.serviceOf EmptyString "img:1" EmptyString) Double.cluster1)
     = Double.cluster1
  /\ calls (GetBaseRevision Double.collaborators
              (Double.serviceOf EmptyString "img:1" EmptyString) Double.cluster1)
     = [CallRevisionTemplateOfService (Double.serviceOf EmptyString "img:1" EmptyString)].
Proof.
  apply (GetBaseRevision_no_pointer Double.collaborators
           (Double.serviceOf EmptyString "img:1" EmptyString)
           {| tmpl_Name := EmptyString; tmpl_Spec := Double.specOf "img:1" |}
           Double.cluster1).
  - reflexivity.
  - reflexivity.
  - reflexivity.
Defined.

(** The service names revision [rev-42], which the cluster does not hold. *)
Lemma GetBaseRevision_not_found_verbatim_witness :
  returned (GetBaseRevision Double.collaborators
              (Double.serviceOf "rev-42" "img:1" "hello-1") Double.cluster1)
    = Err (NewNotFound "revisions" "rev-42")
  /\ world (GetBaseRevision Double.collaborators
              (Double.serviceOf "rev-42" "img:1" "hello-1") Double.cluster1)
     = Double.cluster1
  /\ (IsNotFound (NewNotFound "revisions" "rev-42") = true ->
      NewNotFound "revisions" "rev-42" <> noBaseRevisionError).
Proof.
  apply (GetBaseRevision_not_found_verbatim Double.collaborators
           (Double.serviceOf "rev-42" "img:1" "hello-1")
           {| tmpl_Name := "rev-42"; tmpl_Spec := Double.specOf "img:1" |}
           (NewNotFound "revisions" "rev-42") Double.cluster1 Double.cluster1).
  - reflexivity.
  - discriminate.
  - reflexivity.
Defined.

(** The facade's own [GetRevision] hands an error of the typed client to
    [kn_errors.GetError] and returns what that gives; a revision it returns
    with its kind set. *)
Lemma knServingClient_GetRevision_error {W : Type} (GetError : error -> error)
    (schemeGVK : Scheme) (cl : knServingClient W) (name : string) (err : error) (w w' : W) :
  Revisions_Get (client cl) (namespace cl) name w = (Err err, w') ->
  knServingClient_GetRevision GetError schemeGVK cl name w = (Err (GetError err), w').
Proof. intros Hget. unfold knServingClient_GetRevision. rewrite Hget. reflexivity. Qed.

Lemma knServingClient_GetRevision_found {W : Type} (GetError : error -> error)
    (schemeGVK : Scheme) (cl : knServingClient W) (name : string) (revision : Revision)
    (gvk : TypeMeta) (w w' : W) :
  Revisions_Get (client cl) (namespace cl) name w = (Ok revision, w') ->
  schemeGVK RevisionT = Ok gvk ->
  knServingClient_GetRevision GetError schemeGVK cl name w
    = (Ok (SetGroupVersionKind gvk revision), w').
Proof.
  intros Hget Hs. unfold knServingClient_GetRevision, updateServingGvk.
  rewrite Hget. simpl. rewrite Hs. reflexivity.
Qed.

(** ** Condition extraction *)

(** On the objects of [Object], which leave out the nil pointer to a
    service, the extractor returns an error exactly for the objects that are
    not a service, and for a service the conditions of its status as they
    are. *)
Lemma serviceConditionExtractor_on_objects (fmtV : Object -> string) (obj : Object) :
  (isErr (serviceConditionExtractor fmtV obj) = true
     <-> forall service : Service, obj <> ObjService service)
  /\ (forall service : Service,
        serviceConditionExtractor fmtV (ObjService service)
          = Ok (status_Conditions (svc_Status service))).
Proof.
  split; [|reflexivity].
  unfold serviceConditionExtractor.
  destruct obj; simpl; split; try discriminate; try reflexivity.
  intros Hnot. exfalso. exact (Hnot service eq_refl).
Qed.

(** ** Waiting for a service *)

(** C6: [WaitForService] is [Wait] on the waiter built for kind [service]
    from the service watch of the namespace and the service condition
    extractor; the result of [Wait] is returned as it is. *)
Theorem WaitForService_refines {W I : Type} (pkg : WaitPackage W I)
    (fmtV : Object -> string) (servicesWatch : ServicesWatch W I) (namespace : string)
    (name : string) (timeout : Duration) (w : W) :
  WaitForService pkg fmtV servicesWatch namespace name timeout w
    = WaitForService_spec pkg fmtV servicesWatch namespace name timeout w.
Proof. reflexivity. Qed.

(** ** List options *)

Lemma Join_cons_nonempty (s : string) (rest : list string) (sep : string) :
  s <> EmptyString -> Join (s :: rest) sep <> EmptyString.
Proof.
  intros Hs. destruct s as [|a s]; [contradiction|].
  destruct rest; simpl; discriminate.
Qed.

Lemma entry_nonempty (kv : string * string) : kv.1 +:+ "=" +:+ kv.2 <> EmptyString.
Proof. destruct kv as [k v]. simpl. destruct k; discriminate. Qed.

(** The string of a set with an entry is not empty. *)
Lemma Set_String_nonempty (ls : gmap string string) :
  ls <> ∅ -> Set_String ls <> EmptyString.
Proof.
  intros Hne. unfold Set_String.
  set (entries := (fun kv : string * string => kv.1 +:+ "=" +:+ kv.2) <$> map_to_list ls).
  assert (Hperm : merge_sort String.le entries ≡ₚ entries) by apply merge_sort_Permutation.
  assert (Hall : Forall (fun s => s <> EmptyString) entries).
  { apply Forall_fmap, Forall_forall. intros kv _. apply entry_nonempty. }
  rewrite <- Hperm in Hall.
  destruct (merge_sort String.le entries) as [|s rest] eqn:E.
  - apply Permutation_nil_l in Hperm. subst entries.
    symmetry in Hperm. apply fmap_nil_inv in Hperm. apply map_to_list_empty_iff in Hperm. contradiction.
  - apply Join_cons_nonempty. by inversion Hall.
Qed.

Lemma size_pos_nonempty (ls : gmap string string) : (0 <? size ls) = true <-> ls <> ∅.
Proof.
  rewrite Nat.ltb_lt, <- map_size_non_empty_iff. lia.
Qed.

(** The selectors as [toListOptions] leaves them, whatever the configs do. *)
Lemma toListOptions_FieldSelector (opts : ListConfigs) :
  FieldSelector (toListOptions opts) =
  if 0 <? size (Fields (collect opts)) then Set_String (Fields (collect opts))
  else EmptyString.
Proof.
  unfold toListOptions.
  destruct (0 <? size (Fields (collect opts))), (0 <? size (Labels (collect opts)));
    reflexivity.
Qed.

Lemma toListOptions_LabelSelector (opts : ListConfigs) :
  LabelSelector (toListOptions opts) =
  if 0 <? size (Labels (collect opts)) then Set_String (Labels (collect opts))
  else EmptyString.
Proof.
  unfold toListOptions.
  destruct (0 <? size (Fields (collect opts))), (0 <? size (Labels (collect opts)));
    reflexivity.
Qed.

Lemma FieldSelector_set (opts : ListConfigs) :
  FieldSelector (toListOptions opts) <> EmptyString <-> Fields (collect opts) <> ∅.
Proof.
  rewrite toListOptions_FieldSelector, <- size_pos_nonempty.
  destruct (0 <? size (Fields (collect opts))) eqn:E.
  - split; [reflexivity|]. intros _.
    apply Set_String_nonempty, size_pos_nonempty, E.
  - split; [congruence | discriminate].
Qed.

Lemma LabelSelector_set (opts : ListConfigs) :
  LabelSelector (toListOptions opts) <> EmptyString <-> Labels (collect opts) <> ∅.
Proof.
  rewrite toListOptions_LabelSelector, <- size_pos_nonempty.
  destruct (0 <? size (Labels (collect opts))) eqn:E.
  - split; [reflexivity|]. intros _.
    apply Set_String_nonempty, size_pos_nonempty, E.
  - split; [congruence | discriminate].
Qed.

(** What one config of the package does to the two sets. *)
Lemma isListConfig_Fields (f : ListConfig) (lo : listConfigCollector) :
  isListConfig f ->
  (Fields (f lo) <> ∅ <-> Fields lo <> ∅ \/ addsField f).
Proof.
  intros Hf. split.
  - intros Hne. destruct Hf as [Hf | [service ->]]; [by right | by left].
  - intros [Hlo | [name ->]].
    + destruct Hf as [[name ->] | [service ->]]; simpl; [apply insert_non_empty | done].
    + simpl. apply insert_non_empty.
Qed.

Lemma isListConfig_Labels (f : ListConfig) (lo : listConfigCollector) :
  isListConfig f ->
  (Labels (f lo) <> ∅ <-> Labels lo <> ∅ \/ addsLabel f).
Proof.
  intros Hf. split.
  - intros Hne. destruct Hf as [[name ->] | Hf]; [by left | by right].
  - intros [Hlo | [service ->]].
    + destruct Hf as [[name ->] | [service ->]]; simpl; [done | apply insert_non_empty].
    + simpl. apply insert_non_empty.
Qed.

Lemma collectFrom_Fields (opts : ListConfigs) (lo : listConfigCollector) :
  Forall isListConfig opts ->
  (Fields (fold_left (fun listConfig f => f listConfig) opts lo) <> ∅
     <-> Fields lo <> ∅ \/ Exists addsField opts).
Proof.
  intros Hall. revert lo. induction Hall as [|f opts Hf Hall IH]; intros lo; simpl.
  - rewrite Exists_nil. tauto.
  - rewrite IH, Exists_cons, (isListConfig_Fields f lo Hf). tauto.
Qed.

Lemma collectFrom_Labels (opts : ListConfigs) (lo : listConfigCollector) :
  Forall isListConfig opts ->
  (Labels (fold_left (fun listConfig f => f listConfig) opts lo) <> ∅
     <-> Labels lo <> ∅ \/ Exists addsLabel opts).
Proof.
  intros Hall. revert lo. induction Hall as [|f opts Hf Hall IH]; intros lo; simpl.
  - rewrite Exists_nil. tauto.
  - rewrite IH, Exists_cons, (isListConfig_Labels f lo Hf). tauto.
Qed.

(** C9: for every sequence of configs, the field selector of the list
    options is set exactly when some config added a field entry, and is then
    the string of the accumulated field set; likewise the label selector and
    the label entries; with no config at all both selectors are empty. *)
Theorem toListOptions_selectors (opts : ListConfigs) :
  Forall isListConfig opts ->
  (FieldSelector (toListOptions opts) <> EmptyString <-> Exists addsField opts)
  /\ (Exists addsField opts ->
      FieldSelector (toListOptions opts) = Set_String (Fields (collect opts)))
  /\ (LabelSelector (toListOptions opts) <> EmptyString <-> Exists addsLabel opts)
  /\ (Exists addsLabel opts ->
      LabelSelector (toListOptions opts) = Set_String (Labels (collect opts)))
  /\ toListOptions [] = {| LabelSelector := EmptyString; FieldSelector := EmptyString |}.
Proof.
  intros Hall.
  assert (HF : Fields (collect opts) <> ∅ <-> Exists addsField opts).
  { unfold collect. rewrite (collectFrom_Fields opts _ Hall). simpl. tauto. }
  assert (HL : Labels (collect opts) <> ∅ <-> Exists addsLabel opts).
  { unfold collect. rewrite (collectFrom_Labels opts _ Hall). simpl. tauto. }
  repeat split.
  - intros H. apply HF, FieldSelector_set, H.
  - intros H. apply FieldSelector_set, HF, H.
  - intros H. apply HF, size_pos_nonempty in H.
    rewrite toListOptions_FieldSelector, H. reflexivity.
  - intros H. apply HL, LabelSelector_set, H.
  - intros H. apply LabelSelector_set, HL, H.
  - intros H. apply HL, size_pos_nonempty in H.
    rewrite toListOptions_LabelSelector, H. reflexivity.
Qed.

(** A name filter followed by a service filter. *)
Lemma toListOptions_selectors_witness :
  (FieldSelector (toListOptions [WithName "hello"; WithService "front"]) <> EmptyString
     <-> Exists addsField [WithName "hello"; WithService "front"])
  /\ (Exists addsField [WithName "hello"; WithService "front"] ->
      FieldSelector (toListOptions [WithName "hello"; WithService "front"])
        = Set_String (Fields (collect [WithName "hello"; WithService "front"])))
  /\ (LabelSelector (toListOptions [WithName "hello"; WithService "front"]) <> EmptyString
     <-> Exists addsLabel [WithName "hello"; WithService "front"])
  /\ (Exists addsLabel [WithName "hello"; WithService "front"] ->
      LabelSelector (toListOptions [WithName "hello"; WithService "front"])
        = Set_String (Labels (collect [WithName "hello"; WithService "front"])))
  /\ toListOptions [] = {| LabelSelector := EmptyString; FieldSelector := EmptyString |}.
Proof.
  apply (toListOptions_selectors [WithName "hello"; WithService "front"]).
  apply Forall_cons_2; [left; exists "hello"; reflexivity|].
  apply Forall_cons_2; [right; exists "front"; reflexivity|].
  apply Forall_nil_2.
Defined.

Example toListOptions_name_and_service :
  toListOptions [WithName "hello"; WithService "front"]
    = {| LabelSelector := "serving.knative.dev/service=front";
         FieldSelector := "metadata.name=hello" |}.
Proof. vm_compute. reflexivity. Qed.

(** The last name given wins: the field set is keyed by [metadata.name]. *)
Example toListOptions_name_twice :
  toListOptions [WithName "a"; WithName "b"]
    = {| LabelSelector := EmptyString; FieldSelector := "metadata.name=b" |}.
Proof. vm_compute. reflexivity. Qed.

(** ** The list functions and the heap *)

Section HeapSteps.
Context {A : Type} `{Stored A}.

Lemma bind_eq {X Y} (m : M X) (k : X -> M Y) (h h' : gmap loc cell) (x : X) :
  m h = Some (x, h') -> bind m k h = k x h'.
Proof. intros Hm. unfold bind. rewrite Hm. reflexivity. Qed.

Lemma load_eq (p : loc) (v : A) (h : gmap loc cell) :
  h !! p = Some (toCell v) -> load A p h = Some (v, h).
Proof.
  intros Hp. unfold load. rewrite Hp. simpl. rewrite ofCell_toCell. reflexivity.
Qed.

Lemma modify_eq (p : loc) (f : A -> A) (v : A) (h : gmap loc cell) :
  h !! p = Some (toCell v) -> modify p f h = Some (tt, <[p := toCell (f v)]> h).
Proof.
  intros Hp. unfold modify. rewrite Hp. simpl. rewrite ofCell_toCell. reflexivity.
Qed.

Lemma index_eq (items : list A) (idx : nat) (v : A) (h : gmap loc cell) :
  items !! idx = Some v -> index items idx h = Some (v, h).
Proof. intros Hi. unfold index. rewrite Hi. reflexivity. Qed.

Lemma fresh_lookup (h : gmap loc cell) : h !! fresh (dom h) = None.
Proof. apply not_elem_of_dom, is_fresh. Qed.

Lemma DeepCopy_eq (p : loc) (v : A) (h : gmap loc cell) :
  h !! p = Some (toCell v) ->
  DeepCopy A p h = Some (fresh (dom h), <[fresh (dom h) := toCell v]> h).
Proof.
  intros Hp. unfold DeepCopy. rewrite (bind_eq _ _ _ _ _ (load_eq p v h Hp)).
  reflexivity.
Qed.

Context `{RuntimeObject A}.

Lemma updateServingGvkAt_ok (s : Scheme) (p : loc) (v : A) (gvk : TypeMeta)
    (h : gmap loc cell) :
  s (goType A) = Ok gvk -> h !! p = Some (toCell v) ->
  updateServingGvkAt A s p h = Some (None, <[p := toCell (SetGroupVersionKind gvk v)]> h).
Proof.
  intros Hs Hp. unfold updateServingGvkAt.
  rewrite (bind_eq _ _ _ _ _ (load_eq p v h Hp)).
  unfold updateServingGvk. rewrite Hs.
  rewrite (bind_eq _ _ _ _ _ (modify_eq p _ v h Hp)). reflexivity.
Qed.

Lemma updateServingGvkAt_err (s : Scheme) (p : loc) (v : A) (err : error)
    (h : gmap loc cell) :
  s (goType A) = Err err -> h !! p = Some (toCell v) ->
  updateServingGvkAt A s p h = Some (Some err, h).
Proof.
  intros Hs Hp. unfold updateServingGvkAt.
  rewrite (bind_eq _ _ _ _ _ (load_eq p v h Hp)).
  unfold updateServingGvk. rewrite Hs. reflexivity.
Qed.

End HeapSteps.

Section ListUpdate.
Context {L A : Type} `{Stored L} `{Stored A} `{RuntimeObject L} `{RuntimeObject A}
        `{!ItemList L A}.
Variable s : Scheme.
Variables list listNew : loc.
Variable l0 : L.
Variable h1 : gmap loc cell.
Hypothesis Hlist : h1 !! list = Some (toCell l0).
Hypothesis HlistNew : h1 !! listNew = None.

(** One turn of the loop when the scheme knows the item type: item [idx] of
    the new list becomes the updated copy of item [idx] of the original, and
    nothing that [h1] holds is written. *)
Lemma cloneItem_ok (gvk : TypeMeta) (idx : nat) (item : A) (lnew : L) (h : gmap loc cell) :
  s (goType A) = Ok gvk ->
  h1 ⊆ h ->
  h !! listNew = Some (toCell lnew) ->
  Items l0 !! idx = Some item ->
  exists h',
    cloneItem L A s list listNew idx h = Some (None, h')
    /\ h1 ⊆ h'
    /\ h' !! listNew
       = Some (toCell (withItems (<[idx := SetGroupVersionKind gvk item]> (Items lnew)) lnew)).
Proof.
  intros Hs Hsub Hnew Hitem.
  assert (Hl : h !! list = Some (toCell l0)) by exact (lookup_weaken _ _ _ _ Hlist Hsub).
  set (p := fresh (dom h)).
  assert (Hp : h !! p = None) by apply fresh_lookup.
  assert (Hpn : p <> listNew) by (intros ->; congruence).
  assert (Hp1 : h1 !! p = None) by exact (lookup_weaken_None _ _ _ Hp Hsub).
  assert (Hnew' : <[p := toCell (SetGroupVersionKind gvk item)]> (<[p := toCell item]> h)
                    !! listNew = Some (toCell lnew)).
  { rewrite !lookup_insert_ne by done. exact Hnew. }
  eexists. split; [|split].
  - unfold cloneItem.
    rewrite (bind_eq _ _ _ _ _ (load_eq list l0 h Hl)).
    rewrite (bind_eq _ _ _ _ _ (index_eq _ _ _ h Hitem)).
    rewrite (bind_eq (alloc item) _ h (<[p := toCell item]> h) p eq_refl).
    rewrite (bind_eq _ _ _ _ _
               (updateServingGvkAt_ok s p item gvk _ Hs (lookup_insert_eq _ _ _))).
    rewrite (bind_eq _ _ _ _ _ (load_eq p _ _ (lookup_insert_eq _ _ _))).
    rewrite (bind_eq _ _ _ _ _ (modify_eq listNew _ lnew _ Hnew')).
    reflexivity.
  - apply insert_subseteq_r; [exact HlistNew|].
    apply insert_subseteq_r; [exact Hp1|].
    apply insert_subseteq_r; [exact Hp1|]. exact Hsub.
  - apply lookup_insert_eq.
Qed.

(** The turn when the scheme does not know the item type: the error comes
    back. *)
Lemma cloneItem_err (err : error) (idx : nat) (item : A) (h : gmap loc cell) :
  s (goType A) = Err err ->
  h1 ⊆ h ->
  Items l0 !! idx = Some item ->
  exists h', cloneItem L A s list listNew idx h = Some (Some err, h').
Proof.
  intros Hs Hsub Hitem.
  assert (Hl : h !! list = Some (toCell l0)) by exact (lookup_weaken _ _ _ _ Hlist Hsub).
  eexists. unfold cloneItem.
  rewrite (bind_eq _ _ _ _ _ (load_eq list l0 h Hl)).
  rewrite (bind_eq _ _ _ _ _ (index_eq _ _ _ h Hitem)).
  rewrite (bind_eq (alloc item) _ h _ _ eq_refl).
  rewrite (bind_eq _ _ _ _ _
             (updateServingGvkAt_err s _ item err _ Hs (lookup_insert_eq _ _ _))).
  reflexivity.
Qed.

(** The loop, by induction on the turns left: after it, the first [idx + count]
    items of the new list are the updated copies of the original ones. *)
Lemma forRangeFrom_cloneItem (gvk : TypeMeta) (count : nat) :
  s (goType A) = Ok gvk ->
  forall (idx : nat) (lnew : L) (h : gmap loc cell),
  idx + count = length (Items l0) ->
  h1 ⊆ h ->
  h !! listNew = Some (toCell lnew) ->
  length (Items lnew) = length (Items l0) ->
  (forall j, j < idx -> Items lnew !! j = SetGroupVersionKind gvk <$> Items l0 !! j) ->
  exists h' lnew',
    forRangeFrom idx count (cloneItem L A s list listNew) h = Some (None, h')
    /\ h1 ⊆ h'
    /\ h' !! listNew = Some (toCell lnew')
    /\ GetTypeMeta lnew' = GetTypeMeta lnew
    /\ length (Items lnew') = length (Items l0)
    /\ (forall j, j < idx + count ->
          Items lnew' !! j = SetGroupVersionKind gvk <$> Items l0 !! j).
Proof.
  intros Hs. induction count as [|count IH]; intros idx lnew h Hlen Hsub Hnew Hsize Hdone.
  - exists h, lnew. simpl. repeat split; try done.
    intros j Hj. apply Hdone. lia.
  - destruct (lookup_lt_is_Some_2 (Items l0) idx) as [item Hitem]; [lia|].
    destruct (cloneItem_ok gvk idx item lnew h Hs Hsub Hnew Hitem) as (h' & Hstep & Hsub' & Hnew').
    destruct (IH (S idx)
                (withItems (<[idx := SetGroupVersionKind gvk item]> (Items lnew)) lnew) h') as (h'' & lnew'' & Hrun & Hsub'' & Hnew'' & Htm & Hsize'' & Hdone'').
    + lia.
    + exact Hsub'.
    + exact Hnew'.
    + rewrite Items_withItems, length_insert. exact Hsize.
    + intros j Hj. rewrite Items_withItems.
      destruct (decide (j = idx)) as [->|Hne].
      * rewrite list_lookup_insert_eq by lia. rewrite Hitem. reflexivity.
      * rewrite list_lookup_insert_ne by done. apply Hdone. lia.
    + exists h'', lnew''. repeat split; try done.
      * simpl. rewrite (bind_eq _ _ _ _ _ Hstep). exact Hrun.
      * rewrite Htm. apply GetTypeMeta_withItems.
      * intros j Hj. apply Hdone''. lia.
Qed.

(** The list the loop starts from: the copy with its kind set and its items
    made afresh. *)
Definition madeList (gvkL : TypeMeta) : L :=
  withItems (replicate (length (Items l0)) (zeroItem (L := L))) (SetGroupVersionKind gvkL l0).

Definition madeHeap (gvkL : TypeMeta) : gmap loc cell :=
  <[listNew := toCell (madeList gvkL)]>
    (<[listNew := toCell (SetGroupVersionKind gvkL l0)]> (<[listNew := toCell l0]> h1)).

Lemma madeHeap_extends (gvkL : TypeMeta) : h1 ⊆ madeHeap gvkL.
Proof. unfold madeHeap. repeat apply insert_subseteq_r; done. Qed.

(** The update up to its loop. *)
Lemma updateGvkForList_prefix (gvkL : TypeMeta) :
  s (goType L) = Ok gvkL ->
  listNew = fresh (dom h1) ->
  updateGvkForList L A s list h1 =
  match forRange (length (Items l0)) (cloneItem L A s list listNew) (madeHeap gvkL) with
  | Some (Some err, h') => Some (Err err, h')
  | Some (None, h') => Some (Ok listNew, h')
  | None => None
  end.
Proof.
  intros HsL Hfresh.
  assert (Hne : list <> listNew) by (intros E; rewrite E in Hlist; congruence).
  unfold updateGvkForList.
  rewrite (bind_eq _ _ _ _ _ (DeepCopy_eq list l0 h1 Hlist)).
  rewrite <- Hfresh.
  rewrite (bind_eq _ _ _ _ _
             (updateServingGvkAt_ok s listNew l0 gvkL _ HsL (lookup_insert_eq _ _ _))).
  assert (Hlb : <[listNew := toCell (SetGroupVersionKind gvkL l0)]> (<[listNew := toCell l0]> h1)
                  !! list = Some (toCell l0)).
  { rewrite !lookup_insert_ne by done. exact Hlist. }
  rewrite (bind_eq _ _ _ _ _ (load_eq list l0 _ Hlb)).
  rewrite (bind_eq _ _ _ _ _
             (modify_eq listNew _ (SetGroupVersionKind gvkL l0) _ (lookup_insert_eq _ _ _))).
  fold (madeList gvkL). fold (madeHeap gvkL). unfold bind at 1.
  destruct (forRange _ _ _) as [[[err|] h']|]; reflexivity.
Qed.

(** The update when the scheme does not know the list type. *)
Lemma updateGvkForList_list_err (err : error) :
  s (goType L) = Err err ->
  exists h', updateGvkForList L A s list h1 = Some (Err err, h').
Proof.
  intros HsL. eexists. unfold updateGvkForList.
  rewrite (bind_eq _ _ _ _ _ (DeepCopy_eq list l0 h1 Hlist)).
  rewrite (bind_eq _ _ _ _ _
             (updateServingGvkAt_err s _ l0 err _ HsL (lookup_insert_eq _ _ _))).
  reflexivity.
Qed.

(** The update when the scheme knows the list type but not the item type,
    and there is an item. *)
Lemma updateGvkForList_item_err (gvkL : TypeMeta) (err : error) :
  s (goType L) = Ok gvkL ->
  s (goType A) = Err err ->
  listNew = fresh (dom h1) ->
  Items l0 <> [] ->
  exists h', updateGvkForList L A s list h1 = Some (Err err, h').
Proof.
  intros HsL HsA Hfresh Hitems.
  rewrite (updateGvkForList_prefix gvkL HsL Hfresh).
  destruct (Items l0) as [|item items] eqn:E; [contradiction|].
  destruct (cloneItem_err err 0 item (madeHeap gvkL) HsA (madeHeap_extends gvkL)) as [h' Hstep].
  { rewrite E. reflexivity. }
  exists h'. unfold forRange. simpl. rewrite (bind_eq _ _ _ _ _ Hstep). reflexivity.
Qed.

(** The update of an empty list. *)
Lemma updateGvkForList_empty (gvkL : TypeMeta) :
  s (goType L) = Ok gvkL ->
  listNew = fresh (dom h1) ->
  Items l0 = [] ->
  updateGvkForList L A s list h1 = Some (Ok listNew, madeHeap gvkL)
  /\ madeHeap gvkL !! listNew = Some (toCell (madeList gvkL))
  /\ GetTypeMeta (madeList gvkL) = gvkL
  /\ Items (madeList gvkL) = [].
Proof.
  intros HsL Hfresh Hitems. repeat split.
  - rewrite (updateGvkForList_prefix gvkL HsL Hfresh). rewrite Hitems. reflexivity.
  - apply lookup_insert_eq.
  - unfold madeList. rewrite GetTypeMeta_withItems. apply GetTypeMeta_Set.
  - unfold madeList. rewrite Items_withItems, Hitems. reflexivity.
Qed.

(** The whole update when the scheme knows both types. *)
Lemma updateGvkForList_ok (gvkL gvkA : TypeMeta) :
  s (goType L) = Ok gvkL ->
  s (goType A) = Ok gvkA ->
  listNew = fresh (dom h1) ->
  exists h2 lnew,
    updateGvkForList L A s list h1 = Some (Ok listNew, h2)
    /\ h1 ⊆ h2
    /\ h2 !! listNew = Some (toCell lnew)
    /\ GetTypeMeta lnew = gvkL
    /\ Items lnew = SetGroupVersionKind gvkA <$> Items l0.
Proof.
  intros HsL HsA Hfresh.
  destruct (forRangeFrom_cloneItem gvkA (length (Items l0)) HsA 0 (madeList gvkL) (madeHeap gvkL))
    as (h2 & lnew & Hrun & Hsub2 & Hnew2 & Htm & Hsize & Hitems).
  - lia.
  - apply madeHeap_extends.
  - apply lookup_insert_eq.
  - unfold madeList. rewrite Items_withItems. apply length_replicate.
  - intros j Hj. lia.
  - exists h2, lnew. split; [|repeat split].
    + rewrite (updateGvkForList_prefix gvkL HsL Hfresh).
      unfold forRange. rewrite Hrun. reflexivity.
    + exact Hsub2.
    + exact Hnew2.
    + rewrite Htm. unfold madeList. rewrite GetTypeMeta_withItems. apply GetTypeMeta_Set.
    + apply list_eq. intros j. rewrite list_lookup_fmap.
      destruct (decide (j < length (Items l0))) as [Hj|Hj].
      * apply Hitems. lia.
      * rewrite !lookup_ge_None_2; [done| lia | lia].
Qed.

End ListUpdate.

(** What a successful update has done, whatever the scheme: the pointer
    returned is new, everything the heap held is as it was, and the new list
    has the items of the original, each with its kind set, at the same
    indices. *)
Lemma updateGvkForList_inv {L A : Type} `{Stored L} `{Stored A} `{RuntimeObject L}
    `{RuntimeObject A} `{!ItemList L A}
    (s : Scheme) (list : loc) (l0 : L) (h1 h2 : gmap loc cell) (p : loc) :
  h1 !! list = Some (toCell l0) ->
  updateGvkForList L A s list h1 = Some (Ok p, h2) ->
  h1 !! p = None
  /\ h1 ⊆ h2
  /\ exists lnew : L,
       h2 !! p = Some (toCell lnew)
       /\ s (goType L) = Ok (GetTypeMeta lnew)
       /\ length (Items lnew) = length (Items l0)
       /\ (forall (i : nat) (item : A), Items l0 !! i = Some item ->
             exists gvk, s (goType A) = Ok gvk
                         /\ Items lnew !! i = Some (SetGroupVersionKind gvk item)).
Proof.
  intros Hlist Hrun.
  pose proof (fresh_lookup h1) as Hfresh.
  destruct (s (goType L)) as [gvkL|err] eqn:HsL.
  2:{ destruct (updateGvkForList_list_err s list l0 h1 Hlist err HsL) as [h' E].
      congruence. }
  destruct (s (goType A)) as [gvkA|err] eqn:HsA.
  - destruct (updateGvkForList_ok s list _ l0 h1 Hlist Hfresh gvkL gvkA HsL HsA eq_refl)
      as (h2' & lnew & E & Hsub & Hnew & Htm & Hitems).
    rewrite E in Hrun. injection Hrun as <- <-.
    split; [exact Hfresh|]. split; [exact Hsub|].
    exists lnew. rewrite Htm, Hitems. repeat split; try done.
    + apply length_fmap.
    + intros i item Hi. exists gvkA. split; [done|].
      rewrite list_lookup_fmap, Hi. reflexivity.
  - destruct (Items l0) as [|item items] eqn:Hitems.
    + destruct (updateGvkForList_empty s list _ l0 h1 Hlist Hfresh gvkL HsL eq_refl Hitems)
        as (E & Hnew & Htm & Hnil).
      rewrite E in Hrun. injection Hrun as <- <-.
      split; [exact Hfresh|]. split; [apply madeHeap_extends; done|].
      eexists. split; [exact Hnew|]. rewrite Htm, Hnil. repeat split; try done.
    + destruct (updateGvkForList_item_err s list _ l0 h1 Hlist Hfresh gvkL err HsL HsA eq_refl)
        as [h' E]; [congruence|]. congruence.
Qed.

(** The three list functions are instances of the common shape. *)
Lemma ListServices_shape (cl : listClient) (config : ListConfigs) :
  ListServices cl config =
  do! r := Services_List (lister cl) (lc_namespace cl) (toListOptions config) in
  match r with
  | Err err => ret (Err (GetError cl err))
  | Ok serviceList => updateGvkForList ServiceList Service (schemeGVK cl) serviceList
  end.
Proof. reflexivity. Qed.

Lemma updateServingGvkForRevisionList_shape (s : Scheme) (revisionList : loc) :
  updateServingGvkForRevisionList s revisionList
  = updateGvkForList RevisionList Revision s revisionList.
Proof. reflexivity. Qed.

Lemma updateServingGvkForRouteList_shape (s : Scheme) (routeList : loc) :
  updateServingGvkForRouteList s routeList
  = updateGvkForList RouteList Route s routeList.
Proof. reflexivity. Qed.

(** A list call that the typed client answers with [r] in heap [h1]
    continues with [k r] there. *)
Lemma bind_inv {X Y} (m : M X) (k : X -> M Y) (h h2 : gmap loc cell) (y : Y) :
  bind m k h = Some (y, h2) ->
  exists x h1, m h = Some (x, h1) /\ k x h1 = Some (y, h2).
Proof.
  unfold bind. destruct (m h) as [[x h1]|]; [|discriminate].
  intros Hk. exists x, h1. split; [reflexivity | exact Hk].
Qed.

(** A successful update reads its argument, so that holds a list. *)
Lemma updateGvkForList_reads {L A : Type} `{Stored L} `{Stored A} `{RuntimeObject L}
    `{RuntimeObject A} `{!ItemList L A}
    (s : Scheme) (list : loc) (h1 h2 : gmap loc cell) (r : result loc) :
  updateGvkForList L A s list h1 = Some (r, h2) ->
  exists l0 : L, h1 !! list = Some (toCell l0).
Proof.
  unfold updateGvkForList, DeepCopy, bind at 1 2, load.
  destruct (h1 !! list) as [c|] eqn:Hc; simpl; [|discriminate].
  destruct (ofCell c) as [l0|] eqn:Hl0; [|discriminate].
  intros _. exists l0. f_equal. apply ofCell_Some, Hl0.
Qed.

Lemma updateGvkForList_listedAs {L A : Type} `{Stored L} `{Stored A} `{RuntimeObject L}
    `{RuntimeObject A} `{!ItemList L A}
    (s : Scheme) (p0 p : loc) (h1 h2 : gmap loc cell) :
  updateGvkForList L A s p0 h1 = Some (Ok p, h2) ->
  listedAs L A s h1 h2 p0 p.
Proof.
  intros Hrun.
  destruct (updateGvkForList_reads s p0 h1 h2 _ Hrun) as [l0 Hl0].
  destruct (updateGvkForList_inv s p0 l0 h1 h2 p Hl0 Hrun)
    as (Hfresh & Hsub & lnew & Hnew & _ & Hlen & Hitems).
  exists l0, lnew. repeat split; try done.
  - exact (lookup_weaken _ _ _ _ Hl0 Hsub).
  - intros q c Hq. exact (lookup_weaken _ _ _ _ Hq Hsub).
Qed.

(** C10: a successful [ListServices], [ListRevisions] or [ListRoutes] returns
    a new list with as many items as the list of the typed client, in the
    same order, each the original item with its kind set; the list of the
    typed client and its items, as every other object the heap held, are left
    as they were, the kind being set on the copies only. *)
Theorem List_copies_and_frames (cl : listClient) (config : ListConfigs)
    (h h2 : gmap loc cell) (p : loc) :
  (ListServices cl config h = Some (Ok p, h2) ->
     exists p0 h1,
       Services_List (lister cl) (lc_namespace cl) (toListOptions config) h = Some (Ok p0, h1)
       /\ listedAs ServiceList Service (schemeGVK cl) h1 h2 p0 p)
  /\ (ListRevisions cl config h = Some (Ok p, h2) ->
     exists p0 h1,
       Revisions_List (lister cl) (lc_namespace cl) (toListOptions config) h = Some (Ok p0, h1)
       /\ listedAs RevisionList Revision (schemeGVK cl) h1 h2 p0 p)
  /\ (ListRoutes cl config h = Some (Ok p, h2) ->
     exists p0 h1,
       Routes_List (lister cl) (lc_namespace cl) (toListOptions config) h = Some (Ok p0, h1)
       /\ listedAs RouteList Route (schemeGVK cl) h1 h2 p0 p).
Proof.
  split; [|split]; intros Hrun.
  - rewrite ListServices_shape in Hrun.
    apply bind_inv in Hrun as ([p0|err] & h1 & Hlist & Hrun); [|discriminate].
    exists p0, h1. split; [exact Hlist|]. apply updateGvkForList_listedAs, Hrun.
  - unfold ListRevisions in Hrun.
    apply bind_inv in Hrun as ([p0|err] & h1 & Hlist & Hrun); [|discriminate].
    rewrite updateServingGvkForRevisionList_shape in Hrun.
    exists p0, h1. split; [exact Hlist|]. apply updateGvkForList_listedAs, Hrun.
  - unfold ListRoutes in Hrun.
    apply bind_inv in Hrun as ([p0|err] & h1 & Hlist & Hrun); [|discriminate].
    rewrite updateServingGvkForRouteList_shape in Hrun.
    exists p0, h1. split; [exact Hlist|]. apply updateGvkForList_listedAs, Hrun.
Qed.

(** The list calls do return: when the typed client answers with a list and
    the scheme knows the types, each of them succeeds. *)
Lemma List_calls_succeed (cl : listClient) (config : ListConfigs)
    (h h1 : gmap loc cell) (p0 : loc) :
  (forall t : GoType, isErr (schemeGVK cl t) = false) ->
  (forall l0 : ServiceList,
     Services_List (lister cl) (lc_namespace cl) (toListOptions config) h = Some (Ok p0, h1) ->
     h1 !! p0 = Some (CServiceList l0) ->
     exists p h2, ListServices cl config h = Some (Ok p, h2))
  /\ (forall l0 : RevisionList,
     Revisions_List (lister cl) (lc_namespace cl) (toListOptions config) h = Some (Ok p0, h1) ->
     h1 !! p0 = Some (CRevisionList l0) ->
     exists p h2, ListRevisions cl config h = Some (Ok p, h2))
  /\ (forall l0 : RouteList,
     Routes_List (lister cl) (lc_namespace cl) (toListOptions config) h = Some (Ok p0, h1) ->
     h1 !! p0 = Some (CRouteList l0) ->
     exists p h2, ListRoutes cl config h = Some (Ok p, h2)).
Proof.
  intros Hs.
  assert (Hok : forall t, exists gvk, schemeGVK cl t = Ok gvk).
  { intros t. specialize (Hs t). destruct (schemeGVK cl t) as [gvk|]; [eauto|discriminate]. }
  split; [|split]; intros l0 Hlist Hp0.
  - destruct (Hok ServiceListT) as [gvkL HL], (Hok ServiceT) as [gvkA HA].
    pose proof (updateGvkForList_ok (L := ServiceList) (A := Service) (schemeGVK cl) p0
                  (fresh (dom h1)) l0 h1) as Hrun.
    destruct (Hrun Hp0 (fresh_lookup h1) gvkL gvkA HL HA eq_refl) as (h2 & lnew & E & _).
    exists (fresh (dom h1)), h2.
    rewrite ListServices_shape, (bind_eq _ _ _ _ _ Hlist). exact E.
  - destruct (Hok RevisionListT) as [gvkL HL], (Hok RevisionT) as [gvkA HA].
    pose proof (updateGvkForList_ok (L := RevisionList) (A := Revision) (schemeGVK cl) p0
                  (fresh (dom h1)) l0 h1) as Hrun.
    destruct (Hrun Hp0 (fresh_lookup h1) gvkL gvkA HL HA eq_refl) as (h2 & lnew & E & _).
    exists (fresh (dom h1)), h2.
    unfold ListRevisions. rewrite (bind_eq _ _ _ _ _ Hlist). exact E.
  - destruct (Hok RouteListT) as [gvkL HL], (Hok RouteT) as [gvkA HA].
    pose proof (updateGvkForList_ok (L := RouteList) (A := Route) (schemeGVK cl) p0
                  (fresh (dom h1)) l0 h1) as Hrun.
    destruct (Hrun Hp0 (fresh_lookup h1) gvkL gvkA HL HA eq_refl) as (h2 & lnew & E & _).
    exists (fresh (dom h1)), h2.
    unfold ListRoutes. rewrite (bind_eq _ _ _ _ _ Hlist). exact E.
Qed.

(** The services of the test cluster, listed from an empty heap. *)
Lemma List_copies_and_frames_witness :
  exists (p : loc) (h2 : gmap loc cell),
    ListServices Double.lists [] ∅ = Some (Ok p, h2)
    /\ exists p0 h1,
         Services_List (lister Double.lists) (lc_namespace Double.lists) (toListOptions []) ∅
           = Some (Ok p0, h1)
         /\ listedAs ServiceList Service (schemeGVK Double.lists) h1 h2 p0 p.
Proof.
  destruct (ListServices Double.lists [] ∅) as [[[p|err] h2]|] eqn:E.
  - exists p, h2. split; [reflexivity|].
    exact (proj1 (List_copies_and_frames Double.lists [] ∅ h2 p) E).
  - exfalso. vm_compute in E. discriminate E.
  - exfalso. vm_compute in E. discriminate E.
Defined.

(** With a scheme that knows no type the list call fails, and the list of
    the typed client is still as it was decoded. *)
Example ListServices_unknown_kind :
  (ListServices
     {| lister := Double.fakeLister; lc_namespace := "default";
        GetError := Double.passError; schemeGVK := Double.emptyScheme |} [] ∅
   ≫= fun '(r, h2) => Some (r, h2 !! 1%positive))
  = Some (Err (errorString "no kind is registered for the type"),
          Some (CServiceList
                  {| sl_TypeMeta := Double.noTypeMeta;
                     sl_Items := [Double.serviceOf "hello-1" "img:1" "hello-1";
                                  Double.serviceOf EmptyString "img:2" "hello-1"] |})).
Proof. vm_compute. reflexivity. Qed.

(** The list returned for the test cluster: the two services, in order, with
    their kind set, under a list whose kind is set as well. *)
Example ListServices_run :
  (ListServices Double.lists [] ∅ ≫= fun '(r, h2) =>
     match r with
     | Ok p => h2 !! p
     | Err _ => None
     end)
  = Some (CServiceList
      {| sl_TypeMeta := {| Kind := "ServiceList"; APIVersion := "serving.knative.dev/v1alpha1" |};
         sl_Items :=
           [SetGroupVersionKind
              {| Kind := "Service"; APIVersion := "serving.knative.dev/v1alpha1" |}
              (Double.serviceOf "hello-1" "img:1" "hello-1");
            SetGroupVersionKind
              {| Kind := "Service"; APIVersion := "serving.knative.dev/v1alpha1" |}
              (Double.serviceOf EmptyString "img:2" "hello-1")] |}).
Proof. vm_compute. reflexivity. Qed.

(** ** The readiness waiter *)

Module ReadinessWaiterFacts.
Import ReadinessWaiter.

(** A stream that breaks before the deadline is consumed up to the break,
    and what is left of the deadline is the budget less the time elapsed. *)
Lemma consume_breaksAfter (extract : ConditionsExtractor) (name : string)
    (stream : Stream) (elapsed : nat) :
  breaksAfter extract name stream elapsed ->
  forall (remaining : nat) (last : option Condition),
  elapsed < remaining ->
  exists cause last',
    consume extract name stream remaining last = Broken cause (remaining - elapsed) last'
    /\ (cause = StreamError \/ cause = StreamClosed).
Proof.
  induction 1 as [after | after obj rest | after ev rest elapsed Hev Hrest IH];
    intros remaining last Hlt; simpl.
  - apply Nat.ltb_lt in Hlt. rewrite Hlt. eauto.
  - apply Nat.ltb_lt in Hlt. rewrite Hlt. eauto.
  - assert (Hafter : (after <? remaining) = true) by (apply Nat.ltb_lt; lia).
    rewrite Hafter.
    assert (Hsub : remaining - (after + elapsed) = remaining - after - elapsed) by lia.
    rewrite Hsub. unfold progressing in Hev.
    destruct (ev_Kind ev).
    + destruct Hev as [Hname | (conditions & Hext & Hv)].
      * apply strne_true in Hname. rewrite Hname. apply IH. lia.
      * destruct (objectName (ev_Object ev) !=? name); [apply IH; lia|].
        rewrite Hext, Hv. apply IH. lia.
    + destruct Hev as [Hname | (conditions & Hext & Hv)].
      * apply strne_true in Hname. rewrite Hname. apply IH. lia.
      * destruct (objectName (ev_Object ev) !=? name); [apply IH; lia|].
        rewrite Hext, Hv. apply IH. lia.
    + apply strne_true in Hev. rewrite Hev. apply IH. lia.
    + contradiction.
Qed.

(** What [Watch] and [Stop] record. *)
Lemma Watch_Ok (opts : ListOptions) (src : Source) (stream : Stream) :
  answers src (length (watched src)) = Ok stream ->
  Watch opts src =
  (Ok (length (watched src), stream),
   {| current := current src; answers := answers src;
      watched := watched src ++ [opts];
      opened := opened src ++ [length (watched src)]; stopped := stopped src |}).
Proof. intros Ha. unfold Watch. rewrite Ha. reflexivity. Qed.

Lemma Watch_Err (opts : ListOptions) (src : Source) (err : error) :
  answers src (length (watched src)) = Err err ->
  Watch opts src =
  (Err err,
   {| current := current src; answers := answers src;
      watched := watched src ++ [opts];
      opened := opened src; stopped := stopped src |}).
Proof. intros Ha. unfold Watch. rewrite Ha. reflexivity. Qed.

(** [Wait] when the first subscription breaks before the deadline. *)
Lemma Wait_first_broken (w : Waiter) (name : string) (timeout : nat) (src : Source)
    (s1 : Stream) (cause1 : Cause) (remaining : nat) (last1 : option Condition) :
  answers src (length (watched src)) = Ok s1 ->
  consume (extract w) name s1 timeout None = Broken cause1 remaining last1 ->
  0 < timeout ->
  Wait w name timeout src =
  match Watch (nameFilter name) (afterFirst name src) with
  | (Err err, src) => (Errored (WatchFailed err), src)
  | (Ok sub, src) =>
      match consume (extract w) name sub.2 remaining last1 with
      | Done r => (r, Stop sub src)
      | Broken cause _ _ => (Errored cause, Stop sub src)
      end
  end.
Proof.
  intros Ha Hc Hpos. unfold Wait.
  destruct (timeout =? 0) eqn:E; [apply Nat.eqb_eq in E; lia|].
  rewrite (Watch_Ok _ _ _ Ha). simpl. rewrite Hc. reflexivity.
Qed.

(** C7: when the first subscription of a [Wait] breaks, by an error event or
    by the closing of its channel, before the deadline, the watch is
    subscribed to once more and only once, whatever comes next; the second
    subscription is consumed under what is left of the deadline; and when it
    breaks as well before the deadline, the wait ends in [Errored] with no
    further subscription. *)
Theorem Wait_resubscribes_once (w : Waiter) (name : string) (timeout : nat) (src : Source)
    (s1 : Stream) (t1 : nat) :
  answers src (length (watched src)) = Ok s1 ->
  breaksAfter (extract w) name s1 t1 ->
  t1 < timeout ->
  watched (Wait w name timeout src).2 = watched src ++ [nameFilter name; nameFilter name]
  /\ (forall s2 : Stream,
        answers src (S (length (watched src))) = Ok s2 ->
        exists last1,
          (Wait w name timeout src).1 =
          match consume (extract w) name s2 (timeout - t1) last1 with
          | Done r => r
          | Broken cause _ _ => Errored cause
          end)
  /\ (forall (s2 : Stream) (t2 : nat),
        answers src (S (length (watched src))) = Ok s2 ->
        breaksAfter (extract w) name s2 t2 ->
        t1 + t2 < timeout ->
        exists cause,
          (Wait w name timeout src).1 = Errored cause
          /\ (cause = StreamError \/ cause = StreamClosed)).
Proof.
  intros Ha Hb Hlt.
  destruct (consume_breaksAfter _ _ _ _ Hb timeout None Hlt) as (cause1 & last1 & Hc & _).
  assert (Hpos : 0 < timeout) by lia.
  rewrite (Wait_first_broken w name timeout src s1 cause1 _ last1 Ha Hc Hpos).
  assert (Hlen : length (watched (afterFirst name src)) = S (length (watched src))).
  { simpl. rewrite length_app. simpl. lia. }
  split; [|split].
  - unfold Watch. rewrite Hlen.
    destruct (answers (afterFirst name src) (S (length (watched src)))) as [s2|err]; simpl.
    + destruct (consume (extract w) name s2 (timeout - t1) last1);
        simpl; rewrite <- app_assoc; reflexivity.
    + rewrite <- app_assoc. reflexivity.
  - intros s2 Ha2. exists last1.
    rewrite (Watch_Ok _ (afterFirst name src) s2) by (rewrite Hlen; exact Ha2).
    simpl. destruct (consume (extract w) name s2 (timeout - t1) last1); reflexivity.
  - intros s2 t2 Ha2 Hb2 Hlt2.
    destruct (consume_breaksAfter _ _ _ _ Hb2 (timeout - t1) last1) as (cause2 & last2 & Hc2 & Hcause);
      [lia|].
    exists cause2. split; [|exact Hcause].
    rewrite (Watch_Ok _ (afterFirst name src) s2) by (rewrite Hlen; exact Ha2).
    simpl. rewrite Hc2. reflexivity.
Qed.

(** A watch that breaks twice: the wait ends in [Errored], with two
    subscriptions opened and both stopped. *)
Example Wait_flaky_watch :
  Wait Double.serviceWaiter "hello" 10 Double.flakySource
  = (Errored StreamError,
     {| current := current Double.flakySource; answers := answers Double.flakySource;
        watched := [nameFilter "hello"; nameFilter "hello"];
        opened := [0; 1]; stopped := [0; 1] |}).
Proof. reflexivity. Qed.

(** The same watch with the deadline too close for the second subscription
    to deliver anything: the wait times out with the condition last seen. *)
Example Wait_flaky_watch_timeout :
  (Wait Double.serviceWaiter "hello" 4 Double.flakySource).1
  = TimedOut (Some {| cond_Type := "Ready"; cond_Status := ConditionUnknown;
                      cond_Reason := "RevisionMissing"; cond_Message := EmptyString |}).
Proof. reflexivity. Qed.

(** The watch of the test double breaks twice in a row. *)
Lemma Wait_resubscribes_once_witness :
  watched (Wait Double.serviceWaiter "hello" 10 Double.flakySource).2
    = [nameFilter "hello"; nameFilter "hello"]
  /\ exists cause,
       (Wait Double.serviceWaiter "hello" 10 Double.flakySource).1 = Errored cause
       /\ (cause = StreamError \/ cause = StreamClosed).
Proof.
  assert (H1 : breaksAfter (extract Double.serviceWaiter) "hello"
                 (Next 1 {| ev_Kind := MODIFIED; ev_Object := Double.helloWith ConditionUnknown |}
                    (Closed 2)) (1 + 2)).
  { apply breaks_later; [|apply breaks_closed].
    right. eexists. split; reflexivity. }
  destruct (Wait_resubscribes_once Double.serviceWaiter "hello" 10 Double.flakySource
              _ (1 + 2) eq_refl H1 ltac:(simpl; lia)) as (Hwatched & _ & Hfatal).
  split; [exact Hwatched|].
  apply (Hfatal _ 1 eq_refl).
  - apply breaks_error.
  - simpl. lia.
Defined.

(** Closes a goal that names the subscriptions opened and stopped. *)
Ltac released :=
  simpl;
  split;
  [ first [ left; reflexivity | right; left; reflexivity | right; right; reflexivity ]
  | split; rewrite ?app_nil_r, <- ?app_assoc; reflexivity ].

(** The subscriptions a [Wait] has opened, none, one or two, are exactly those
    it has stopped by the time it returns, each once and in the order of
    their opening. *)
Lemma Wait_opened_are_stopped (w : Waiter) (name : string) (timeout : nat)
    (src : Source) :
  exists new : list nat,
    (new = [] \/ new = [length (watched src)]
     \/ new = [length (watched src); S (length (watched src))])
    /\ opened (Wait w name timeout src).2 = opened src ++ new
    /\ stopped (Wait w name timeout src).2 = stopped src ++ new.
Proof.
  unfold Wait.
  destruct (timeout =? 0).
  { exists []. released. }
  unfold Watch.
  destruct (answers src (length (watched src))) as [s1|err1]; simpl.
  2:{ exists []. released. }
  destruct (consume (extract w) name s1 timeout None) as [r|cause1 remaining last1]; simpl.
  { exists [length (watched src)]. released. }
  rewrite length_app. simpl. rewrite Nat.add_1_r.
  destruct (answers src (S (length (watched src)))) as [s2|err2]; simpl.
  2:{ exists [length (watched src)]. released. }
  exists [length (watched src); S (length (watched src))].
  destruct (consume (extract w) name s2 remaining last1); released.
Qed.

(** Each terminal result is reached with every subscription stopped. *)
Example Wait_success_releases :
  Wait Double.serviceWaiter "hello" 5
    {| current := fun _ => Ok (Double.helloWith ConditionUnknown);
       answers := fun _ =>
         Ok (Next 2 {| ev_Kind := ADDED; ev_Object := Double.helloWith ConditionTrue |} Silent);
       watched := []; opened := []; stopped := [] |}
  = (Success,
     {| current := fun _ => Ok (Double.helloWith ConditionUnknown);
        answers := fun _ =>
          Ok (Next 2 {| ev_Kind := ADDED; ev_Object := Double.helloWith ConditionTrue |} Silent);
        watched := [nameFilter "hello"]; opened := [0]; stopped := [0] |}).
Proof. reflexivity. Qed.

Example Wait_deleted_fails :
  (Wait Double.serviceWaiter "hello" 5
     {| current := fun _ => Ok (Double.helloWith ConditionUnknown);
        answers := fun _ =>
          Ok (Next 2 {| ev_Kind := DELETED; ev_Object := Double.helloWith ConditionTrue |} Silent);
        watched := []; opened := []; stopped := [] |}).1
  = Failure "deleted".
Proof. reflexivity. Qed.

(** Stopping what was just opened leaves the open subscriptions as they were. *)
Lemma live_restored (opened stopped new : list nat) :
  (forall id, id ∈ opened -> id ∉ new) ->
  filter (fun id => id ∉ stopped ++ new) (opened ++ new)
  = filter (fun id => id ∉ stopped) opened.
Proof.
  intros Hfresh. rewrite filter_app.
  assert (Hnew : forall l, (forall id, id ∈ l -> id ∈ new) ->
                 filter (fun id => id ∉ stopped ++ new) l = []).
  { induction l as [|id l IHl]; intros Hl; [reflexivity|].
    rewrite filter_cons_False.
    - apply IHl. intros id' Hin. apply Hl. right. exact Hin.
    - intros Hnot. apply Hnot, elem_of_app. right. apply Hl. left. }
  rewrite (Hnew new) by done.
  rewrite app_nil_r. clear Hnew.
  induction opened as [|id opened IH]; [reflexivity|].
  assert (Hid : id ∉ new) by (apply Hfresh; left).
  assert (IH' : filter (fun id => id ∉ stopped ++ new) opened
                = filter (fun id => id ∉ stopped) opened).
  { apply IH. intros id' Hin. apply Hfresh. right. exact Hin. }
  destruct (decide (id ∈ stopped)) as [Hin|Hnin].
  - rewrite !filter_cons_False; [exact IH'| |].
    + intros Hnot. exact (Hnot Hin).
    + intros Hnot. apply Hnot, elem_of_app. left. exact Hin.
  - rewrite !filter_cons_True; [by rewrite IH'|exact Hnin|].
    intros Hin. apply elem_of_app in Hin as [Hin|Hin]; contradiction.
Qed.

(** C8: whatever the outcome of a [Wait], success, failure, timeout or
    error, the subscriptions it has opened are exactly those it has stopped
    by the time it returns, each once; and, subscriptions being numbered by
    the calls of [Watch], it returns with the same subscriptions open as when
    it was called, so none of its own is left open. *)
Theorem Wait_releases_subscriptions (w : Waiter) (name : string) (timeout : nat)
    (src : Source) :
  (exists new : list nat,
     (new = [] \/ new = [length (watched src)]
      \/ new = [length (watched src); S (length (watched src))])
     /\ opened (Wait w name timeout src).2 = opened src ++ new
     /\ stopped (Wait w name timeout src).2 = stopped src ++ new)
  /\ ((forall id, id ∈ opened src -> id < length (watched src)) ->
      live (Wait w name timeout src).2 = live src).
Proof.
  split; [apply Wait_opened_are_stopped|].
  intros Hwf.
  destruct (Wait_opened_are_stopped w name timeout src) as (new & Hnew & Ho & Hs).
  unfold live. rewrite Ho, Hs. apply live_restored.
  intros id Hin Hid. apply Hwf in Hin.
  destruct Hnew as [-> | [-> | ->]].
  - by apply elem_of_nil in Hid.
  - apply list_elem_of_singleton in Hid. lia.
  - apply elem_of_cons in Hid as [->|Hid]; [lia|].
    apply list_elem_of_singleton in Hid. lia.
Qed.

(** The watch that breaks twice: both subscriptions are stopped, and none is
    open at the end. *)
Lemma Wait_releases_subscriptions_witness :
  live (Wait Double.serviceWaiter "hello" 10 Double.flakySource).2 = live Double.flakySource.
Proof.
  apply (proj2 (Wait_releases_subscriptions Double.serviceWaiter "hello" 10 Double.flakySource)).
  intros id Hid. by apply elem_of_nil in Hid.
Defined.

End ReadinessWaiterFacts.

(** ** Base-revision resolution: errors and what every run has in common *)

Section BaseRevisionRuns.
Context {W : Type}.
Variable cl : Collaborators W.

(** X1: when the template of the service cannot be extracted, that error is
    what [GetBaseRevision] returns, and the cluster is not asked for any
    revision. *)
Theorem GetBaseRevision_template_error (service : Service) (err : error) (w : W) :
  RevisionTemplateOfService cl service = Err err ->
  returned (GetBaseRevision cl service w) = Err err
  /\ world (GetBaseRevision cl service w) = w
  /\ calls (GetBaseRevision cl service w) = [CallRevisionTemplateOfService service].
Proof.
  intros Ht. unfold GetBaseRevision, run, getBaseRevision.
  rewrite runFrom_Vis. simpl. rewrite Ht. simpl. repeat split.
Qed.

(** X2: on the path through the latest-created pointer, an error of the
    fetch, a not-found error for a revision that was deleted among them, is
    returned as it is; no container is extracted and no image compared. *)
Theorem GetBaseRevision_latest_fetch_error
    (service : Service) (template : RevisionTemplateSpec) (err : error) (w w' : W) :
  RevisionTemplateOfService cl service = Ok template ->
  tmpl_Name template = EmptyString ->
  LatestCreatedRevisionName (svc_Status service) <> EmptyString ->
  GetRevision cl (LatestCreatedRevisionName (svc_Status service)) w = (Err err, w') ->
  returned (GetBaseRevision cl service w) = Err err
  /\ world (GetBaseRevision cl service w) = w'
  /\ calls (GetBaseRevision cl service w)
     = [CallRevisionTemplateOfService service;
        CallGetRevision (LatestCreatedRevisionName (svc_Status service))].
Proof.
  intros Ht Hname Hptr Hget.
  rewrite (GetBaseRevision_template cl _ _ _ Ht).
  apply strne_false in Hname. apply strne_true in Hptr. rewrite Hname, Hptr.
  rewrite runFrom_Vis. simpl. rewrite Hget. simpl. repeat split.
Qed.

(** X3: on the path through the latest-created pointer, when the container
    of the fetched revision or the container of the template cannot be
    extracted, that error is returned and the fetched revision is not, the
    revision's container being asked for first. *)
Theorem GetBaseRevision_container_error
    (service : Service) (template : RevisionTemplateSpec) (latestCreated : Revision)
    (w w' : W) :
  RevisionTemplateOfService cl service = Ok template ->
  tmpl_Name template = EmptyString ->
  LatestCreatedRevisionName (svc_Status service) <> EmptyString ->
  GetRevision cl (LatestCreatedRevisionName (svc_Status service)) w = (Ok latestCreated, w') ->
  (forall err,
     ContainerOfRevisionSpec cl (rev_Spec latestCreated) = Err err ->
     returned (GetBaseRevision cl service w) = Err err
     /\ existsb (fun c => match c with CallContainerOfRevisionTemplate _ => true | _ => false end)
          (calls (GetBaseRevision cl service w)) = false)
  /\ (forall latestContainer err,
     ContainerOfRevisionSpec cl (rev_Spec latestCreated) = Ok latestContainer ->
     ContainerOfRevisionTemplate cl template = Err err ->
     returned (GetBaseRevision cl service w) = Err err).
Proof.
  intros Ht Hname Hptr Hget.
  rewrite (GetBaseRevision_template cl _ _ _ Ht).
  apply strne_false in Hname. apply strne_true in Hptr. rewrite Hname, Hptr.
  rewrite runFrom_Vis. simpl. rewrite Hget. simpl.
  split.
  - intros err Hlc. rewrite Hlc. simpl. split; reflexivity.
  - intros latestContainer err Hlc Hc. rewrite Hlc. simpl. rewrite Hc. reflexivity.
Qed.

(** X4: once the template of the service has been extracted, a run of
    [GetBaseRevision] asks the cluster for at most one revision.  A run that
    asks for none fails with the no-base-revision error and leaves the
    cluster as it was; a run that asks for one leaves the cluster as that
    fetch left it, and a revision it returns is the very revision fetched. *)
Theorem GetBaseRevision_fetches_at_most_once
    (service : Service) (template : RevisionTemplateSpec) (w : W) :
  RevisionTemplateOfService cl service = Ok template ->
  (fetches (calls (GetBaseRevision cl service w)) = []
   /\ world (GetBaseRevision cl service w) = w
   /\ returned (GetBaseRevision cl service w) = Err noBaseRevisionError)
  \/ (exists name,
        fetches (calls (GetBaseRevision cl service w)) = [name]
        /\ world (GetBaseRevision cl service w) = (GetRevision cl name w).2
        /\ (forall revision,
              returned (GetBaseRevision cl service w) = Ok revision ->
              (GetRevision cl name w).1 = Ok revision)).
Proof.
  intros Ht.
  rewrite (GetBaseRevision_template cl _ _ _ Ht).
  destruct (tmpl_Name template !=? EmptyString).
  { right. exists (tmpl_Name template). rewrite runFrom_Vis. simpl.
    destruct (GetRevision cl (tmpl_Name template) w) as [r w']. simpl.
    repeat split. intros revision Hr. exact Hr. }
  destruct (LatestCreatedRevisionName (svc_Status service) !=? EmptyString).
  2:{ left. simpl. repeat split. }
  right. exists (LatestCreatedRevisionName (svc_Status service)).
  rewrite runFrom_Vis. simpl.
  destruct (GetRevision cl (LatestCreatedRevisionName (svc_Status service)) w)
    as [[latestCreated|err] w']; simpl; [|repeat split; discriminate].
  destruct (ContainerOfRevisionSpec cl (rev_Spec latestCreated)) as [latestContainer|err];
    simpl; [|repeat split; discriminate].
  destruct (ContainerOfRevisionTemplate cl template) as [container|err];
    simpl; [|repeat split; discriminate].
  destruct (Image latestContainer !=? Image container); simpl; repeat split;
    congruence.
Qed.

(** X5: a base revision found through the latest-created pointer always
    runs the image the template asks for: when the template has no name and
    [GetBaseRevision] returns a revision, the pointer is not empty and the
    containers extracted from the revision and from the template have the
    same image. *)
Theorem GetBaseRevision_pointer_result_has_image
    (service : Service) (template : RevisionTemplateSpec) (revision : Revision) (w : W) :
  RevisionTemplateOfService cl service = Ok template ->
  tmpl_Name template = EmptyString ->
  returned (GetBaseRevision cl service w) = Ok revision ->
  LatestCreatedRevisionName (svc_Status service) <> EmptyString
  /\ exists latestContainer container,
       ContainerOfRevisionSpec cl (rev_Spec revision) = Ok latestContainer
       /\ ContainerOfRevisionTemplate cl template = Ok container
       /\ Image latestContainer = Image container.
Proof.
  intros Ht Hname.
  rewrite (GetBaseRevision_template cl _ _ _ Ht).
  apply strne_false in Hname. rewrite Hname.
  destruct (LatestCreatedRevisionName (svc_Status service) !=? EmptyString) eqn:Hptr;
    [|simpl; discriminate].
  rewrite runFrom_Vis. simpl.
  destruct (GetRevision cl (LatestCreatedRevisionName (svc_Status service)) w)
    as [[latestCreated|err] w']; simpl; [|discriminate].
  destruct (ContainerOfRevisionSpec cl (rev_Spec latestCreated)) as [latestContainer|err] eqn:Hlc;
    simpl; [|discriminate].
  destruct (ContainerOfRevisionTemplate cl template) as [container|err] eqn:Hc;
    simpl; [|discriminate].
  destruct (Image latestContainer !=? Image container) eqn:Himg; simpl; [discriminate|].
  intros [= <-]. split; [apply strne_true, Hptr|].
  exists latestContainer, container. repeat split; try done.
  apply strne_false, Himg.
Qed.

End BaseRevisionRuns.

(** ** List options: what the selectors are *)

Lemma Set_String_singleton (key value : string) :
  Set_String {[ key := value ]} = key +:+ "=" +:+ value.
Proof. unfold Set_String. rewrite map_to_list_singleton. reflexivity. Qed.

Lemma nameOnly_insert (set : gmap string string) (name : string) :
  nameOnly set -> <["metadata.name" := name]> set = {[ "metadata.name" := name ]}.
Proof.
  intros [-> | [old ->]]; [apply insert_empty | apply insert_singleton_eq].
Qed.

Lemma serviceOnly_insert (set : gmap string string) (service : string) :
  serviceOnly set -> <[ServiceLabelKey := service]> set = {[ ServiceLabelKey := service ]}.
Proof.
  intros [-> | [old ->]]; [apply insert_empty | apply insert_singleton_eq].
Qed.

Lemma isListConfig_keeps (f : ListConfig) (lo : listConfigCollector) :
  isListConfig f ->
  nameOnly (Fields lo) -> serviceOnly (Labels lo) ->
  nameOnly (Fields (f lo)) /\ serviceOnly (Labels (f lo)).
Proof.
  intros [[name ->] | [service ->]] HF HL; simpl; split; try done.
  - right. exists name. by apply nameOnly_insert.
  - right. exists service. by apply serviceOnly_insert.
Qed.

Lemma collectFrom_keeps (opts : ListConfigs) (lo : listConfigCollector) :
  Forall isListConfig opts ->
  nameOnly (Fields lo) -> serviceOnly (Labels lo) ->
  nameOnly (Fields (fold_left (fun listConfig f => f listConfig) opts lo))
  /\ serviceOnly (Labels (fold_left (fun listConfig f => f listConfig) opts lo)).
Proof.
  intros Hall. revert lo. induction Hall as [|f opts Hf Hall IH]; intros lo HF HL; simpl.
  - done.
  - destruct (isListConfig_keeps f lo Hf HF HL) as [HF' HL']. by apply IH.
Qed.

(** Configs that add labels leave the fields alone, and the other way round. *)
Lemma addsLabel_Fields (rest : ListConfigs) (lo : listConfigCollector) :
  Forall addsLabel rest ->
  Fields (fold_left (fun listConfig f => f listConfig) rest lo) = Fields lo.
Proof.
  intros Hall. revert lo. induction Hall as [|f rest [service ->] Hall IH]; intros lo; simpl.
  - reflexivity.
  - rewrite IH. reflexivity.
Qed.

Lemma addsField_Labels (rest : ListConfigs) (lo : listConfigCollector) :
  Forall addsField rest ->
  Labels (fold_left (fun listConfig f => f listConfig) rest lo) = Labels lo.
Proof.
  intros Hall. revert lo. induction Hall as [|f rest [name ->] Hall IH]; intros lo; simpl.
  - reflexivity.
  - rewrite IH. reflexivity.
Qed.

(** X6: among the configs the package builds, the last [WithName] decides
    the field selector, which is [metadata.name=] followed by its name
    whatever names came before; and the last [WithService] decides the label
    selector in the same way, under the service label key. *)
Theorem toListOptions_last_wins (opts rest : ListConfigs) (value : string) :
  Forall isListConfig opts ->
  (Forall addsLabel rest ->
   FieldSelector (toListOptions (opts ++ WithName value :: rest))
     = "metadata.name=" +:+ value)
  /\ (Forall addsField rest ->
   LabelSelector (toListOptions (opts ++ WithService value :: rest))
     = "serving.knative.dev/service=" +:+ value).
Proof.
  intros Hall.
  destruct (collectFrom_keeps opts {| Labels := ∅; Fields := ∅ |} Hall) as [HF HL];
    [by left | by left |].
  split; intros Hrest.
  - rewrite toListOptions_FieldSelector. unfold collect.
    rewrite fold_left_app. cbn [fold_left].
    rewrite (addsLabel_Fields rest _ Hrest). unfold WithName. cbn [Fields].
    rewrite nameOnly_insert by exact HF. rewrite map_size_singleton.
    apply Set_String_singleton.
  - rewrite toListOptions_LabelSelector. unfold collect.
    rewrite fold_left_app. cbn [fold_left].
    rewrite (addsField_Labels rest _ Hrest). unfold WithService. cbn [Labels].
    rewrite serviceOnly_insert by exact HL. rewrite map_size_singleton.
    apply Set_String_singleton.
Qed.

(** Two names, then a service: the second name and the service are asked for. *)
Lemma toListOptions_last_wins_witness :
  FieldSelector (toListOptions ([WithName "a"] ++ WithName "b" :: [WithService "front"]))
    = "metadata.name=" +:+ "b".
Proof.
  refine (proj1 (toListOptions_last_wins [WithName "a"] [WithService "front"] "b" _) _).
  - apply Forall_cons_2; [left; exists "a"; reflexivity | apply Forall_nil_2].
  - apply Forall_cons_2; [exists "front"; reflexivity | apply Forall_nil_2].
Defined.

(** X7: a name filter and a service filter can be given in either order:
    swapping two neighbours of different kind, anywhere among any config
    functions, gives the same list options. *)
Theorem toListOptions_name_service_commute (before after : ListConfigs)
    (name service : string) :
  toListOptions (before ++ WithName name :: WithService service :: after)
  = toListOptions (before ++ WithService service :: WithName name :: after).
Proof.
  assert (Hcollect :
    collect (before ++ WithName name :: WithService service :: after)
    = collect (before ++ WithService service :: WithName name :: after)).
  { unfold collect. rewrite !fold_left_app. reflexivity. }
  unfold toListOptions. rewrite Hcollect. reflexivity.
Qed.

(** ** Single objects: in place, and which errors are wrapped *)

(** What an update of the kind through a pointer has done. *)
Lemma updateServingGvkAt_inv {A : Type} `{Stored A} `{RuntimeObject A}
    (s : Scheme) (p : loc) (h h' : gmap loc cell) (e : option error) :
  updateServingGvkAt A s p h = Some (e, h') ->
  exists v : A,
    h !! p = Some (toCell v)
    /\ ((exists gvk, s (goType A) = Ok gvk /\ e = None
                     /\ h' = <[p := toCell (SetGroupVersionKind gvk v)]> h)
        \/ (exists err, s (goType A) = Err err /\ e = Some err /\ h' = h)).
Proof.
  intros Hrun.
  assert (Hv : exists v : A, h !! p = Some (toCell v)).
  { unfold updateServingGvkAt, bind, load in Hrun.
    destruct (h !! p) as [c|]; simpl in Hrun; [|discriminate].
    destruct (ofCell c) as [v|] eqn:Hc; [|discriminate].
    exists v. f_equal. apply ofCell_Some, Hc. }
  destruct Hv as [v Hv]. exists v. split; [exact Hv|].
  destruct (s (goType A)) as [gvk|err] eqn:Hs.
  - left. exists gvk. rewrite (updateServingGvkAt_ok s p v gvk h Hs Hv) in Hrun.
    injection Hrun as <- <-. done.
  - right. exists err. rewrite (updateServingGvkAt_err s p v err h Hs Hv) in Hrun.
    injection Hrun as <- <-. done.
Qed.

(** X8: a successful [GetService] or [GetRoute] returns the very pointer the
    typed client answered with; the object behind it has had its kind set in
    place, and nothing else in the heap has changed. *)
Theorem Get_updates_in_place (objects : ServingObjects) (cl : listClient) (name : string)
    (h h2 : gmap loc cell) (p : loc) :
  (GetService objects cl name h = Some (Ok p, h2) ->
   exists h1 service gvk,
     Services_Get objects (lc_namespace cl) name h = Some (Ok p, h1)
     /\ h1 !! p = Some (CService service)
     /\ schemeGVK cl ServiceT = Ok gvk
     /\ h2 = <[p := CService (SetGroupVersionKind gvk service)]> h1)
  /\ (GetRoute objects cl name h = Some (Ok p, h2) ->
   exists h1 route gvk,
     Routes_Get objects (lc_namespace cl) name h = Some (Ok p, h1)
     /\ h1 !! p = Some (CRoute route)
     /\ schemeGVK cl RouteT = Ok gvk
     /\ h2 = <[p := CRoute (SetGroupVersionKind gvk route)]> h1).
Proof.
  split; intros Hrun.
  - unfold GetService in Hrun.
    apply bind_inv in Hrun as ([q|err] & h1 & Hget & Hrun); [|discriminate].
    apply bind_inv in Hrun as (e & h' & Hupd & Hret).
    apply updateServingGvkAt_inv in Hupd
      as (v & Hv & [(gvk & Hs & -> & ->) | (err & Hs & -> & ->)]); [|discriminate].
    injection Hret as <- <-. exists h1, v, gvk. done.
  - unfold GetRoute in Hrun.
    apply bind_inv in Hrun as ([q|err] & h1 & Hget & Hrun); [|discriminate].
    apply bind_inv in Hrun as (e & h' & Hupd & Hret).
    apply updateServingGvkAt_inv in Hupd
      as (v & Hv & [(gvk & Hs & -> & ->) | (err & Hs & -> & ->)]); [|discriminate].
    injection Hret as <- <-. exists h1, v, gvk. done.
Qed.

(** X9: when the typed client has fetched the object but the scheme does not
    know its type, [GetService] and [GetRoute] return the error of the scheme
    and no object; the fetched object is left as it was fetched. *)
Theorem Get_unknown_kind (objects : ServingObjects) (cl : listClient) (name : string)
    (h h1 : gmap loc cell) (p : loc) (err : error) :
  (forall service,
     Services_Get objects (lc_namespace cl) name h = Some (Ok p, h1) ->
     h1 !! p = Some (CService service) ->
     schemeGVK cl ServiceT = Err err ->
     GetService objects cl name h = Some (Err err, h1))
  /\ (forall route,
     Routes_Get objects (lc_namespace cl) name h = Some (Ok p, h1) ->
     h1 !! p = Some (CRoute route) ->
     schemeGVK cl RouteT = Err err ->
     GetRoute objects cl name h = Some (Err err, h1)).
Proof.
  split.
  - intros service Hget Hp Hs. unfold GetService.
    rewrite (bind_eq _ _ _ _ _ Hget).
    pose proof (updateServingGvkAt_err (A := Service) (schemeGVK cl) p service err h1) as Hupd.
    rewrite (bind_eq _ _ _ _ _ (Hupd Hs Hp)). reflexivity.
  - intros route Hget Hp Hs. unfold GetRoute.
    rewrite (bind_eq _ _ _ _ _ Hget).
    pose proof (updateServingGvkAt_err (A := Route) (schemeGVK cl) p route err h1) as Hupd.
    rewrite (bind_eq _ _ _ _ _ (Hupd Hs Hp)). reflexivity.
Qed.

(** X10: an error of the typed client comes back through [kn_errors.GetError]
    from [GetService], [CreateService], [DeleteService], [DeleteRevision],
    [ListServices] and [ListRevisions], but as it is from [GetRoute],
    [UpdateService] and [ListRoutes]; in each case the facade touches nothing
    in the heap. *)
Theorem typed_client_errors (objects : ServingObjects) (cl : listClient)
    (name : string) (service : loc) (config : ListConfigs) (err : error)
    (h h1 : gmap loc cell) :
  (Services_Get objects (lc_namespace cl) name h = Some (Err err, h1) ->
   GetService objects cl name h = Some (Err (GetError cl err), h1))
  /\ (Services_Create objects (lc_namespace cl) service h = Some (Err err, h1) ->
   CreateService objects cl service h = Some (Some (GetError cl err), h1))
  /\ (Services_Delete objects (lc_namespace cl) name h = Some (Some err, h1) ->
   DeleteService objects cl name h = Some (Some (GetError cl err), h1))
  /\ (Revisions_Delete objects (lc_namespace cl) name h = Some (Some err, h1) ->
   DeleteRevision objects cl name h = Some (Some (GetError cl err), h1))
  /\ (Routes_Get objects (lc_namespace cl) name h = Some (Err err, h1) ->
   GetRoute objects cl name h = Some (Err err, h1))
  /\ (Services_Update objects (lc_namespace cl) service h = Some (Err err, h1) ->
   UpdateService objects cl service h = Some (Some err, h1))
  /\ (Services_List (lister cl) (lc_namespace cl) (toListOptions config) h = Some (Err err, h1) ->
   ListServices cl config h = Some (Err (GetError cl err), h1))
  /\ (Revisions_List (lister cl) (lc_namespace cl) (toListOptions config) h = Some (Err err, h1) ->
   ListRevisions cl config h = Some (Err (GetError cl err), h1))
  /\ (Routes_List (lister cl) (lc_namespace cl) (toListOptions config) h = Some (Err err, h1) ->
   ListRoutes cl config h = Some (Err err, h1)).
Proof.
  repeat split; intros Hcall.
  - unfold GetService. rewrite (bind_eq _ _ _ _ _ Hcall). reflexivity.
  - unfold CreateService. rewrite (bind_eq _ _ _ _ _ Hcall). reflexivity.
  - unfold DeleteService. rewrite (bind_eq _ _ _ _ _ Hcall). reflexivity.
  - unfold DeleteRevision. rewrite (bind_eq _ _ _ _ _ Hcall). reflexivity.
  - unfold GetRoute. rewrite (bind_eq _ _ _ _ _ Hcall). reflexivity.
  - unfold UpdateService. rewrite (bind_eq _ _ _ _ _ Hcall). reflexivity.
  - rewrite ListServices_shape, (bind_eq _ _ _ _ _ Hcall). reflexivity.
  - unfold ListRevisions. rewrite (bind_eq _ _ _ _ _ Hcall). reflexivity.
  - unfold ListRoutes. rewrite (bind_eq _ _ _ _ _ Hcall). reflexivity.
Qed.

(** X11: a successful [CreateService] or [UpdateService] sets the kind on the
    service the caller passed in, in place; the object the server sent back
    is not looked at, so nothing of it reaches the caller's service. *)
Theorem Create_Update_set_kind_on_argument (objects : ServingObjects) (cl : listClient)
    (service : loc) (h h2 : gmap loc cell) :
  (CreateService objects cl service h = Some (None, h2) ->
   exists sent h1 v gvk,
     Services_Create objects (lc_namespace cl) service h = Some (Ok sent, h1)
     /\ h1 !! service = Some (CService v)
     /\ schemeGVK cl ServiceT = Ok gvk
     /\ h2 = <[service := CService (SetGroupVersionKind gvk v)]> h1)
  /\ (UpdateService objects cl service h = Some (None, h2) ->
   exists sent h1 v gvk,
     Services_Update objects (lc_namespace cl) service h = Some (Ok sent, h1)
     /\ h1 !! service = Some (CService v)
     /\ schemeGVK cl ServiceT = Ok gvk
     /\ h2 = <[service := CService (SetGroupVersionKind gvk v)]> h1).
Proof.
  split; intros Hrun.
  - unfold CreateService in Hrun.
    apply bind_inv in Hrun as ([sent|err] & h1 & Hcall & Hrun); [|discriminate].
    apply updateServingGvkAt_inv in Hrun
      as (v & Hv & [(gvk & Hs & _ & ->) | (err & Hs & Hne & _)]); [|discriminate].
    exists sent, h1, v, gvk. done.
  - unfold UpdateService in Hrun.
    apply bind_inv in Hrun as ([sent|err] & h1 & Hcall & Hrun); [|discriminate].
    apply updateServingGvkAt_inv in Hrun
      as (v & Hv & [(gvk & Hs & _ & ->) | (err & Hs & Hne & _)]); [|discriminate].
    exists sent, h1, v, gvk. done.
Qed.

(** ** The list functions on every outcome *)

Section ListOutcomes.
Context {L A : Type} `{Stored L} `{Stored A} `{RuntimeObject L} `{RuntimeObject A}
        `{!ItemList L A}.
Variable s : Scheme.
Variable list : loc.
Variable l0 : L.
Variable h1 : gmap loc cell.
Hypothesis Hlist : h1 !! list = Some (toCell l0).

(** The update that fails on the list itself has only made the copy. *)
Lemma updateGvkForList_list_err_heap (err : error) :
  s (goType L) = Err err ->
  updateGvkForList L A s list h1 = Some (Err err, <[fresh (dom h1) := toCell l0]> h1).
Proof.
  intros HsL. unfold updateGvkForList.
  rewrite (bind_eq _ _ _ _ _ (DeepCopy_eq list l0 h1 Hlist)).
  rewrite (bind_eq _ _ _ _ _
             (updateServingGvkAt_err s _ l0 err _ HsL (lookup_insert_eq _ _ _))).
  reflexivity.
Qed.

(** The update that fails on its first item has made the copy of the list and
    the copy of that item. *)
Lemma updateGvkForList_item_err_heap (gvkL : TypeMeta) (err : error) :
  s (goType L) = Ok gvkL ->
  s (goType A) = Err err ->
  Items l0 <> [] ->
  exists h2,
    updateGvkForList L A s list h1 = Some (Err err, h2) /\ h1 ⊆ h2.
Proof.
  intros HsL HsA Hitems.
  pose proof (fresh_lookup h1) as Hfresh.
  rewrite (updateGvkForList_prefix s list (fresh (dom h1)) l0 h1 Hlist Hfresh gvkL HsL eq_refl).
  destruct (Items l0) as [|item items] eqn:E; [contradiction|].
  set (hm := madeHeap (fresh (dom h1)) l0 h1 gvkL).
  assert (Hsub : h1 ⊆ hm) by (apply madeHeap_extends; exact Hfresh).
  assert (Hl : hm !! list = Some (toCell l0)) by exact (lookup_weaken _ _ _ _ Hlist Hsub).
  assert (Hstep : cloneItem L A s list (fresh (dom h1)) 0 hm
                  = Some (Some err, <[fresh (dom hm) := toCell item]> hm)).
  { unfold cloneItem.
    rewrite (bind_eq _ _ _ _ _ (load_eq list l0 hm Hl)).
    rewrite (bind_eq _ _ _ _ _ (index_eq (Items l0) 0 item hm ltac:(rewrite E; reflexivity))).
    rewrite (bind_eq (alloc item) _ hm _ _ eq_refl).
    rewrite (bind_eq _ _ _ _ _
               (updateServingGvkAt_err s _ item err _ HsA (lookup_insert_eq _ _ _))).
    reflexivity. }
  exists (<[fresh (dom hm) := toCell item]> hm). split.
  - unfold forRange. cbn [length forRangeFrom].
    rewrite (bind_eq _ _ _ _ _ Hstep). reflexivity.
  - apply insert_subseteq_r; [|exact Hsub].
    exact (lookup_weaken_None _ _ _ (fresh_lookup hm) Hsub).
Qed.

(** Whatever the update returns, every object the heap held is still there
    as it was. *)
Lemma updateGvkForList_frames (r : result loc) (h2 : gmap loc cell) :
  updateGvkForList L A s list h1 = Some (r, h2) -> h1 ⊆ h2.
Proof.
  intros Hrun.
  pose proof (fresh_lookup h1) as Hfresh.
  destruct (s (goType L)) as [gvkL|err] eqn:HsL.
  2:{ rewrite (updateGvkForList_list_err_heap err HsL) in Hrun.
      injection Hrun as <- <-. by apply insert_subseteq. }
  destruct (s (goType A)) as [gvkA|err] eqn:HsA.
  - destruct (updateGvkForList_ok s list _ l0 h1 Hlist Hfresh gvkL gvkA HsL HsA eq_refl)
      as (h2' & lnew & E & Hsub & _).
    rewrite E in Hrun. injection Hrun as <- <-. exact Hsub.
  - destruct (Items l0) as [|item items] eqn:Hitems.
    + destruct (updateGvkForList_empty s list _ l0 h1 Hlist Hfresh gvkL HsL eq_refl Hitems)
        as (E & _).
      rewrite E in Hrun. injection Hrun as <- <-. apply madeHeap_extends; done.
    + destruct (updateGvkForList_item_err_heap gvkL err HsL HsA) as (h2' & E & Hsub).
      { rewrite Hitems. discriminate. }
      rewrite E in Hrun. injection Hrun as <- <-. exact Hsub.
Qed.

End ListOutcomes.

(** X12: whatever a list call returns, a list or an error, every object the
    typed client left in the heap, its list and the items of it included, is
    still there unchanged when the call returns. *)
Theorem List_frames_on_every_outcome (cl : listClient) (config : ListConfigs)
    (h h2 : gmap loc cell) (r : result loc) :
  (ListServices cl config h = Some (r, h2) ->
   exists r0 h1,
     Services_List (lister cl) (lc_namespace cl) (toListOptions config) h = Some (r0, h1)
     /\ h1 ⊆ h2)
  /\ (ListRevisions cl config h = Some (r, h2) ->
   exists r0 h1,
     Revisions_List (lister cl) (lc_namespace cl) (toListOptions config) h = Some (r0, h1)
     /\ h1 ⊆ h2)
  /\ (ListRoutes cl config h = Some (r, h2) ->
   exists r0 h1,
     Routes_List (lister cl) (lc_namespace cl) (toListOptions config) h = Some (r0, h1)
     /\ h1 ⊆ h2).
Proof.
  split; [|split]; intros Hrun.
  - rewrite ListServices_shape in Hrun.
    apply bind_inv in Hrun as ([p0|err] & h1 & Hlist & Hrun); (eexists; exists h1; split; [exact Hlist|]).
    + destruct (updateGvkForList_reads _ _ _ _ _ Hrun) as [l0 Hl0].
      exact (updateGvkForList_frames _ _ l0 _ Hl0 _ _ Hrun).
    + injection Hrun as _ <-. done.
  - unfold ListRevisions in Hrun.
    apply bind_inv in Hrun as ([p0|err] & h1 & Hlist & Hrun); (eexists; exists h1; split; [exact Hlist|]).
    + rewrite updateServingGvkForRevisionList_shape in Hrun.
      destruct (updateGvkForList_reads _ _ _ _ _ Hrun) as [l0 Hl0].
      exact (updateGvkForList_frames _ _ l0 _ Hl0 _ _ Hrun).
    + injection Hrun as _ <-. done.
  - unfold ListRoutes in Hrun.
    apply bind_inv in Hrun as ([p0|err] & h1 & Hlist & Hrun); (eexists; exists h1; split; [exact Hlist|]).
    + rewrite updateServingGvkForRouteList_shape in Hrun.
      destruct (updateGvkForList_reads _ _ _ _ _ Hrun) as [l0 Hl0].
      exact (updateGvkForList_frames _ _ l0 _ Hl0 _ _ Hrun).
    + injection Hrun as _ <-. done.
Qed.

(** X13: when the scheme knows the type of the list but not the type of its
    items, a list call on an empty list still succeeds, with an empty list
    that has its kind set, because the items are only looked at in the loop;
    on a list with an item it fails with the error of the scheme. *)
Theorem List_unknown_item_kind (cl : listClient) (config : ListConfigs)
    (h h1 : gmap loc cell) (p0 : loc) (gvkL : TypeMeta) (err : error) :
  (forall l0 : ServiceList,
     Services_List (lister cl) (lc_namespace cl) (toListOptions config) h = Some (Ok p0, h1) ->
     h1 !! p0 = Some (CServiceList l0) ->
     schemeGVK cl ServiceListT = Ok gvkL ->
     schemeGVK cl ServiceT = Err err ->
     (sl_Items l0 = [] ->
      exists h2,
        ListServices cl config h = Some (Ok (fresh (dom h1)), h2)
        /\ h2 !! fresh (dom h1)
           = Some (CServiceList {| sl_TypeMeta := gvkL; sl_Items := [] |}))
     /\ (sl_Items l0 <> [] ->
      exists h2, ListServices cl config h = Some (Err err, h2)))
  /\ (forall l0 : RevisionList,
     Revisions_List (lister cl) (lc_namespace cl) (toListOptions config) h = Some (Ok p0, h1) ->
     h1 !! p0 = Some (CRevisionList l0) ->
     schemeGVK cl RevisionListT = Ok gvkL ->
     schemeGVK cl RevisionT = Err err ->
     (rl_Items l0 = [] ->
      exists h2,
        ListRevisions cl config h = Some (Ok (fresh (dom h1)), h2)
        /\ h2 !! fresh (dom h1)
           = Some (CRevisionList {| rl_TypeMeta := gvkL; rl_Items := [] |}))
     /\ (rl_Items l0 <> [] ->
      exists h2, ListRevisions cl config h = Some (Err err, h2)))
  /\ (forall l0 : RouteList,
     Routes_List (lister cl) (lc_namespace cl) (toListOptions config) h = Some (Ok p0, h1) ->
     h1 !! p0 = Some (CRouteList l0) ->
     schemeGVK cl RouteListT = Ok gvkL ->
     schemeGVK cl RouteT = Err err ->
     (rtl_Items l0 = [] ->
      exists h2,
        ListRoutes cl config h = Some (Ok (fresh (dom h1)), h2)
        /\ h2 !! fresh (dom h1)
           = Some (CRouteList {| rtl_TypeMeta := gvkL; rtl_Items := [] |}))
     /\ (rtl_Items l0 <> [] ->
      exists h2, ListRoutes cl config h = Some (Err err, h2))).
Proof.
  pose proof (fresh_lookup h1) as Hfresh.
  split; [|split]; intros l0 Hlist Hp0 HsL HsA; split; intros Hitems.
  - pose proof (updateGvkForList_empty (L := ServiceList) (A := Service) (schemeGVK cl) p0
                  (fresh (dom h1)) l0 h1) as Hrun.
    destruct (Hrun Hp0 Hfresh gvkL HsL eq_refl Hitems) as (E & Hnew & _).
    eexists. rewrite ListServices_shape, (bind_eq _ _ _ _ _ Hlist). split; [exact E|].
    rewrite Hnew. unfold madeList. simpl. rewrite Hitems. reflexivity.
  - pose proof (updateGvkForList_item_err_heap (L := ServiceList) (A := Service) (schemeGVK cl)
                  p0 l0 h1) as Hrun.
    destruct (Hrun Hp0 gvkL err HsL HsA Hitems) as (h2 & E & _).
    exists h2. rewrite ListServices_shape, (bind_eq _ _ _ _ _ Hlist). exact E.
  - pose proof (updateGvkForList_empty (L := RevisionList) (A := Revision) (schemeGVK cl) p0
                  (fresh (dom h1)) l0 h1) as Hrun.
    destruct (Hrun Hp0 Hfresh gvkL HsL eq_refl Hitems) as (E & Hnew & _).
    eexists. unfold ListRevisions. rewrite (bind_eq _ _ _ _ _ Hlist).
    rewrite updateServingGvkForRevisionList_shape. split; [exact E|].
    rewrite Hnew. unfold madeList. simpl. rewrite Hitems. reflexivity.
  - pose proof (updateGvkForList_item_err_heap (L := RevisionList) (A := Revision) (schemeGVK cl)
                  p0 l0 h1) as Hrun.
    destruct (Hrun Hp0 gvkL err HsL HsA Hitems) as (h2 & E & _).
    exists h2. unfold ListRevisions. rewrite (bind_eq _ _ _ _ _ Hlist).
    rewrite updateServingGvkForRevisionList_shape. exact E.
  - pose proof (updateGvkForList_empty (L := RouteList) (A := Route) (schemeGVK cl) p0
                  (fresh (dom h1)) l0 h1) as Hrun.
    destruct (Hrun Hp0 Hfresh gvkL HsL eq_refl Hitems) as (E & Hnew & _).
    eexists. unfold ListRoutes. rewrite (bind_eq _ _ _ _ _ Hlist).
    rewrite updateServingGvkForRouteList_shape. split; [exact E|].
    rewrite Hnew. unfold madeList. simpl. rewrite Hitems. reflexivity.
  - pose proof (updateGvkForList_item_err_heap (L := RouteList) (A := Route) (schemeGVK cl)
                  p0 l0 h1) as Hrun.
    destruct (Hrun Hp0 gvkL err HsL HsA Hitems) as (h2 & E & _).
    exists h2. unfold ListRoutes. rewrite (bind_eq _ _ _ _ _ Hlist).
    rewrite updateServingGvkForRouteList_shape. exact E.
Qed.

(** ** Base-revision resolution through the facade *)

(** X14: with a named template, [GetBaseRevision] over the facade itself
    returns the revision the typed client holds under that name with its
    kind set; the error of the scheme when the scheme does not know the
    revision type, although the revision exists; and, for an error of the
    typed client, what [kn_errors.GetError] makes of it. *)
Theorem GetBaseRevision_through_facade {W : Type} (GetError : error -> error)
    (scheme : Scheme) (templateOf : Service -> result RevisionTemplateSpec)
    (containerOfSpec : RevisionSpec -> result Container)
    (containerOfTemplate : RevisionTemplateSpec -> result Container)
    (cl : knServingClient W) (service : Service) (template : RevisionTemplateSpec) (w : W) :
  templateOf service = Ok template ->
  tmpl_Name template <> EmptyString ->
  (forall revision gvk w',
     Revisions_Get (client cl) (namespace cl) (tmpl_Name template) w = (Ok revision, w') ->
     scheme RevisionT = Ok gvk ->
     returned (GetBaseRevision
                 (knServingCollaborators GetError scheme templateOf containerOfSpec
                    containerOfTemplate cl) service w)
       = Ok (SetGroupVersionKind gvk revision))
  /\ (forall revision err w',
     Revisions_Get (client cl) (namespace cl) (tmpl_Name template) w = (Ok revision, w') ->
     scheme RevisionT = Err err ->
     returned (GetBaseRevision
                 (knServingCollaborators GetError scheme templateOf containerOfSpec
                    containerOfTemplate cl) service w)
       = Err err)
  /\ (forall err w',
     Revisions_Get (client cl) (namespace cl) (tmpl_Name template) w = (Err err, w') ->
     returned (GetBaseRevision
                 (knServingCollaborators GetError scheme templateOf containerOfSpec
                    containerOfTemplate cl) service w)
       = Err (GetError err)).
Proof.
  intros Ht Hname.
  set (facade := knServingCollaborators GetError scheme templateOf containerOfSpec
                   containerOfTemplate cl).
  assert (Hrun : returned (GetBaseRevision facade service w)
                 = (knServingClient_GetRevision GetError scheme cl (tmpl_Name template) w).1).
  { rewrite (GetBaseRevision_template facade service template w Ht).
    apply strne_true in Hname. rewrite Hname.
    rewrite runFrom_Vis. simpl.
    destruct (knServingClient_GetRevision GetError scheme cl (tmpl_Name template) w).
    reflexivity. }
  rewrite Hrun. unfold knServingClient_GetRevision, updateServingGvk.
  split; [|split].
  - intros revision gvk w' Hget Hs. rewrite Hget. simpl. rewrite Hs. reflexivity.
  - intros revision err w' Hget Hs. rewrite Hget. simpl. rewrite Hs. reflexivity.
  - intros err w' Hget. rewrite Hget. reflexivity.
Qed.

(** The revision [hello-1] exists, but the scheme knows no type. *)
Lemma GetBaseRevision_through_facade_witness :
  returned (GetBaseRevision Sample.unregistered
              (Double.serviceOf "hello-1" "img:1" EmptyString) Double.cluster1)
    = Err (errorString "no kind is registered for the type").
Proof.
  refine (proj1 (proj2 (GetBaseRevision_through_facade Double.passError Double.emptyScheme
            Double.templateOf Double.containerOfSpec Double.containerOfTemplate
            (NewKnServingClient Double.fakeServing "default")
            (Double.serviceOf "hello-1" "img:1" EmptyString)
            {| tmpl_Name := "hello-1"; tmpl_Spec := Double.specOf "img:1" |}
            Double.cluster1 _ _))
            (Double.revisionOf "hello-1" "img:1") _ Double.cluster1 _ _).
  - reflexivity.
  - discriminate.
  - reflexivity.
  - reflexivity.
Defined.

(** ** Witnesses on the test doubles *)

(** A service without a template. *)
Lemma GetBaseRevision_template_error_witness :
  returned (GetBaseRevision Double.collaborators Sample.bare Double.cluster1)
    = Err (errorString "no template")
  /\ world (GetBaseRevision Double.collaborators Sample.bare Double.cluster1) = Double.cluster1
  /\ calls (GetBaseRevision Double.collaborators Sample.bare Double.cluster1)
     = [CallRevisionTemplateOfService Sample.bare].
Proof.
  apply (GetBaseRevision_template_error Double.collaborators Sample.bare
           (errorString "no template") Double.cluster1).
  reflexivity.
Defined.

(** The latest-created revision [hello-0] is gone from the cluster. *)
Lemma GetBaseRevision_latest_fetch_error_witness :
  returned (GetBaseRevision Double.collaborators
              (Double.serviceOf EmptyString "img:1" "hello-0") Double.cluster1)
    = Err (NewNotFound "revisions" "hello-0")
  /\ world (GetBaseRevision Double.collaborators
              (Double.serviceOf EmptyString "img:1" "hello-0") Double.cluster1)
     = Double.cluster1
  /\ calls (GetBaseRevision Double.collaborators
              (Double.serviceOf EmptyString "img:1" "hello-0") Double.cluster1)
     = [CallRevisionTemplateOfService (Double.serviceOf EmptyString "img:1" "hello-0");
        CallGetRevision "hello-0"].
Proof.
  apply (GetBaseRevision_latest_fetch_error Double.collaborators
           (Double.serviceOf EmptyString "img:1" "hello-0")
           {| tmpl_Name := EmptyString; tmpl_Spec := Double.specOf "img:1" |}
           (NewNotFound "revisions" "hello-0") Double.cluster1 Double.cluster1).
  - reflexivity.
  - reflexivity.
  - discriminate.
  - reflexivity.
Defined.

(** The latest-created revision [empty-1] has no container. *)
Lemma GetBaseRevision_container_error_witness :
  returned (GetBaseRevision Double.collaborators
              (Double.serviceOf EmptyString "img:1" "empty-1") Sample.cluster2)
    = Err (errorString "no container").
Proof.
  refine (proj1 (proj1 (GetBaseRevision_container_error Double.collaborators
            (Double.serviceOf EmptyString "img:1" "empty-1")
            {| tmpl_Name := EmptyString; tmpl_Spec := Double.specOf "img:1" |}
            (SetGroupVersionKind
               {| Kind := "Revision"; APIVersion := "serving.knative.dev/v1alpha1" |}
               {| rev_TypeMeta := Double.noTypeMeta; rev_Name := "empty-1";
                  rev_Spec := {| DeprecatedContainer := None; Containers := [] |} |})
            Sample.cluster2 Sample.cluster2 _ _ _ _) (errorString "no container") _)).
  - reflexivity.
  - reflexivity.
  - discriminate.
  - reflexivity.
  - reflexivity.
Defined.

(** The base revision found through the pointer runs [img:1]. *)
Lemma GetBaseRevision_pointer_result_has_image_witness :
  LatestCreatedRevisionName
    (svc_Status (Double.serviceOf EmptyString "img:1" "hello-1")) <> EmptyString
  /\ exists latestContainer container,
       ContainerOfRevisionSpec Double.collaborators
         (rev_Spec (SetGroupVersionKind
                      {| Kind := "Revision"; APIVersion := "serving.knative.dev/v1alpha1" |}
                      (Double.revisionOf "hello-1" "img:1"))) = Ok latestContainer
       /\ ContainerOfRevisionTemplate Double.collaborators
            {| tmpl_Name := EmptyString; tmpl_Spec := Double.specOf "img:1" |} = Ok container
       /\ Image latestContainer = Image container.
Proof.
  apply (GetBaseRevision_pointer_result_has_image Double.collaborators
           (Double.serviceOf EmptyString "img:1" "hello-1")
           {| tmpl_Name := EmptyString; tmpl_Spec := Double.specOf "img:1" |}
           _ Double.cluster1).
  - reflexivity.
  - reflexivity.
  - reflexivity.
Defined.

(** [GetService] on the test doubles: the pointer of the typed client comes
    back, with the kind set behind it. *)
Lemma Get_updates_in_place_witness :
  exists (p : loc) (h2 : gmap loc cell),
    GetService Sample.objects Double.lists "hello" ∅ = Some (Ok p, h2)
    /\ exists h1 service gvk,
         Services_Get Sample.objects (lc_namespace Double.lists) "hello" ∅ = Some (Ok p, h1)
         /\ h1 !! p = Some (CService service)
         /\ schemeGVK Double.lists ServiceT = Ok gvk
         /\ h2 = <[p := CService (SetGroupVersionKind gvk service)]> h1.
Proof.
  destruct (GetService Sample.objects Double.lists "hello" ∅) as [[[p|err] h2]|] eqn:E.
  - exists p, h2. split; [reflexivity|].
    exact (proj1 (Get_updates_in_place Sample.objects Double.lists "hello" ∅ h2 p) E).
  - exfalso. vm_compute in E. discriminate E.
  - exfalso. vm_compute in E. discriminate E.
Defined.

(** [GetService] under a scheme that knows no type. *)
Lemma Get_unknown_kind_witness :
  exists h1 : gmap loc cell,
    GetService Sample.objects Sample.unregisteredLists "hello" ∅
      = Some (Err (errorString "no kind is registered for the type"), h1)
    /\ h1 !! 1%positive = Some (CService Sample.hello).
Proof.
  eexists. split.
  - refine (proj1 (Get_unknown_kind Sample.objects Sample.unregisteredLists "hello" ∅ _
                     1%positive _) Sample.hello _ _ _).
    + reflexivity.
    + reflexivity.
    + reflexivity.
  - reflexivity.
Defined.

(** With the cluster out of reach, [CreateService] hands the error to
    [GetError] and [UpdateService] returns it as it is. *)
Lemma typed_client_errors_witness :
  CreateService Sample.down Sample.wrapping 1%positive Sample.callerHeap
    = Some (Some (errorString "no Knative serving API found on the backend"),
            Sample.callerHeap)
  /\ UpdateService Sample.down Sample.wrapping 1%positive Sample.callerHeap
     = Some (Some Sample.refused, Sample.callerHeap).
Proof.
  pose proof (typed_client_errors Sample.down Sample.wrapping "hello" 1%positive []
                Sample.refused Sample.callerHeap Sample.callerHeap)
    as (_ & Hcreate & _ & _ & _ & Hupdate & _).
  split; [apply Hcreate | apply Hupdate]; reflexivity.
Defined.

(** [CreateService] on the caller's service [bare]: the kind is set on it,
    and what the server sent back, the service [hello], does not reach it. *)
Lemma Create_Update_set_kind_on_argument_witness :
  exists h2 : gmap loc cell,
    CreateService Sample.objects Double.lists 1%positive Sample.callerHeap = Some (None, h2)
    /\ h2 !! 1%positive
       = Some (CService (SetGroupVersionKind
                           {| Kind := "Service"; APIVersion := "serving.knative.dev/v1alpha1" |}
                           Sample.bare)).
Proof.
  destruct (CreateService Sample.objects Double.lists 1%positive Sample.callerHeap)
    as [[[err|] h2]|] eqn:E.
  - exfalso. vm_compute in E. discriminate E.
  - exists h2. split; [reflexivity|].
    destruct (proj1 (Create_Update_set_kind_on_argument Sample.objects Double.lists
                       1%positive Sample.callerHeap h2) E)
      as (sent & h1 & v & gvk & Hcall & Hv & Hs & ->).
    injection Hcall as <- <-. injection Hs as <-.
    rewrite lookup_insert_eq. f_equal. f_equal.
    vm_compute in Hv. injection Hv as <-. reflexivity.
  - exfalso. vm_compute in E. discriminate E.
Defined.

(** A list call that fails, the scheme knowing no type: the list of the typed
    client is still in the heap. *)
Lemma List_frames_on_every_outcome_witness :
  exists (r : result loc) (h2 : gmap loc cell),
    ListServices Sample.unregisteredLists [] ∅ = Some (r, h2)
    /\ isErr r = true
    /\ exists r0 h1,
         Services_List (lister Sample.unregisteredLists)
           (lc_namespace Sample.unregisteredLists) (toListOptions []) ∅ = Some (r0, h1)
         /\ h1 ⊆ h2.
Proof.
  destruct (ListServices Sample.unregisteredLists [] ∅) as [[r h2]|] eqn:E.
  - exists r, h2. split; [reflexivity|]. split.
    + vm_compute in E. injection E as <- _. reflexivity.
    + exact (proj1 (List_frames_on_every_outcome Sample.unregisteredLists [] ∅ h2 r) E).
  - exfalso. vm_compute in E. discriminate E.
Defined.

(** An empty list of services under a scheme that knows the list types only. *)
Lemma List_unknown_item_kind_witness :
  exists h2 : gmap loc cell,
    ListServices Sample.emptyLists [] ∅ = Some (Ok 2%positive, h2)
    /\ h2 !! 2%positive
       = Some (CServiceList
                 {| sl_TypeMeta := {| Kind := "ServiceList";
                                      APIVersion := "serving.knative.dev/v1alpha1" |};
                    sl_Items := [] |}).
Proof.
  refine (proj1 (proj1 (List_unknown_item_kind Sample.emptyLists [] ∅
                   {[ 1%positive := CServiceList {| sl_TypeMeta := Double.noTypeMeta;
                                                    sl_Items := [] |} ]}
                   1%positive
                   {| Kind := "ServiceList"; APIVersion := "serving.knative.dev/v1alpha1" |}
                   (errorString "no kind is registered for the type"))
                   {| sl_TypeMeta := Double.noTypeMeta; sl_Items := [] |} _ _ _ _) _).
  - reflexivity.
  - reflexivity.
  - reflexivity.
  - reflexivity.
  - reflexivity.
Defined.

(** A service with a template but neither a name on it nor a pointer: no
    revision is asked for. *)
Lemma GetBaseRevision_fetches_at_most_once_witness :
  (fetches (calls (GetBaseRevision Double.collaborators
                     (Double.serviceOf EmptyString "img:1" EmptyString) Double.cluster1)) = []
   /\ world (GetBaseRevision Double.collaborators
               (Double.serviceOf EmptyString "img:1" EmptyString) Double.cluster1)
      = Double.cluster1
   /\ returned (GetBaseRevision Double.collaborators
                  (Double.serviceOf EmptyString "img:1" EmptyString) Double.cluster1)
      = Err noBaseRevisionError)
  \/ (exists name,
        fetches (calls (GetBaseRevision Double.collaborators
                          (Double.serviceOf EmptyString "img:1" EmptyString) Double.cluster1))
          = [name]
        /\ world (GetBaseRevision Double.collaborators
                    (Double.serviceOf EmptyString "img:1" EmptyString) Double.cluster1)
           = (GetRevision Double.collaborators name Double.cluster1).2
        /\ (forall revision,
              returned (GetBaseRevision Double.collaborators
                          (Double.serviceOf EmptyString "img:1" EmptyString) Double.cluster1)
                = Ok revision ->
              (GetRevision Double.collaborators name Double.cluster1).1 = Ok revision)).
Proof.
  apply (GetBaseRevision_fetches_at_most_once Double.collaborators
           (Double.serviceOf EmptyString "img:1" EmptyString)
           {| tmpl_Name := EmptyString; tmpl_Spec := Double.specOf "img:1" |}
           Double.cluster1).
  reflexivity.
Defined.

(** ** The condition extractor on every value of the interface *)

(** On what [Object] holds, the extractor over the interface is the
    extractor over the objects. *)
Lemma serviceConditionExtractorOn_Holds (fmtV : InterfaceValue -> string) (obj : Object) :
  serviceConditionExtractorOn fmtV (Holds obj)
  = Returns (serviceConditionExtractor (fun o => fmtV (Holds o)) obj).
Proof. destruct obj; reflexivity. Qed.

(** On the nil pointer to a service the assertion holds and the extractor
    panics: the call returns neither an error nor conditions.  So it is not
    true of every value that an error comes back exactly when the value is
    not a service, nor that a value of the type of a service yields its
    conditions. *)
Lemma serviceConditionExtractor_nil_service_panics :
  assertService NilService = Some None
  /\ serviceConditionExtractorOn Sample.fmtValue NilService = Panics
  /\ ~ (forall obj : InterfaceValue,
          (returnsError (serviceConditionExtractorOn Sample.fmtValue obj) = true
             <-> forall service : Service, obj <> Holds (ObjService service))
          /\ (forall service : Service,
                obj = Holds (ObjService service) ->
                serviceConditionExtractorOn Sample.fmtValue obj
                  = Returns (Ok (status_Conditions (svc_Status service)))))
  /\ ~ (forall obj : InterfaceValue,
          (returnsError (serviceConditionExtractorOn Sample.fmtValue obj) = true
             <-> assertService obj = None)
          /\ (assertService obj <> None ->
                exists conditions,
                  serviceConditionExtractorOn Sample.fmtValue obj = Returns (Ok conditions))).
Proof.
  split; [reflexivity|]. split; [reflexivity|]. split.
  - intros Hclaim. destruct (Hclaim NilService) as [[_ Herr] _].
    assert (Hfalse : returnsError (serviceConditionExtractorOn Sample.fmtValue NilService) = true).
    { apply Herr. intros service. discriminate. }
    discriminate Hfalse.
  - intros Hclaim. destruct (Hclaim NilService) as [_ Hok].
    destruct Hok as [conditions Hret]; [discriminate|]. discriminate Hret.
Qed.

(** C5: for every value of the interface other than the nil pointer to a
    service, the service condition extractor returns; it returns an error
    exactly when the value is not a service, and for a service it returns the
    conditions of its status as they are, with no error. *)
Theorem serviceConditionExtractorOn_spec (fmtV : InterfaceValue -> string)
    (obj : InterfaceValue) :
  obj <> NilService ->
  (exists r, serviceConditionExtractorOn fmtV obj = Returns r)
  /\ (returnsError (serviceConditionExtractorOn fmtV obj) = true
        <-> forall service : Service, obj <> Holds (ObjService service))
  /\ (returnsError (serviceConditionExtractorOn fmtV obj) = true
        <-> assertService obj = None)
  /\ (forall service : Service,
        obj = Holds (ObjService service) ->
        serviceConditionExtractorOn fmtV obj
          = Returns (Ok (status_Conditions (svc_Status service)))).
Proof.
  intros Hnil. destruct obj as [|obj]; [contradiction|].
  rewrite serviceConditionExtractorOn_Holds.
  split; [eauto|]. split; [|split].
  - destruct obj; simpl; split; try discriminate; try reflexivity.
    intros Hnot. exfalso. exact (Hnot service eq_refl).
  - destruct obj; simpl; split; try discriminate; reflexivity.
  - intros service [= ->]. reflexivity.
Qed.

(** The service [hello], ready, and a revision, held in the interface. *)
Lemma serviceConditionExtractorOn_spec_witness :
  serviceConditionExtractorOn Sample.fmtValue (Holds (Double.helloWith ConditionTrue))
    = Returns (Ok [ {| cond_Type := "Ready"; cond_Status := ConditionTrue;
                       cond_Reason := "RevisionMissing"; cond_Message := EmptyString |} ])
  /\ returnsError
       (serviceConditionExtractorOn Sample.fmtValue
          (Holds (ObjRevision (Double.revisionOf "hello-1" "img:1")))) = true.
Proof.
  split.
  - refine (proj2 (proj2 (proj2 (serviceConditionExtractorOn_spec Sample.fmtValue
                                   (Holds (Double.helloWith ConditionTrue)) _))) _ eq_refl).
    discriminate.
  - refine (proj2 (proj1 (proj2 (proj2 (serviceConditionExtractorOn_spec Sample.fmtValue
              (Holds (ObjRevision (Double.revisionOf "hello-1" "img:1"))) _)))) eq_refl).
    discriminate.
Defined.

Example serviceConditionExtractorOn_revision :
  serviceConditionExtractorOn Sample.fmtValue
    (Holds (ObjRevision (Double.revisionOf "hello-1" "img:1")))
  = Returns (Err (errorString "&{hello-1} is not a service")).
Proof. reflexivity. Qed.
